(** * Ticket store and role-scoped views

    A shallow embedding of [src/hooks/useTickets.ts] (the ticket store) and of
    the view derivations of [src/pages/TicketsPage.tsx] (visibility, filter,
    sort, counts), with the properties the specification states about them.

    Conventions of the embedding:
    - a [Date] is its time value, in milliseconds since the epoch, as [Z];
    - an ISO-8601 string produced by [toISOString] is kept as the instant it
      denotes ([Iso t]); [new Date(s)] reads that instant back;
    - a property that may hold [undefined], [null] or a value is a [js A];
      a key of a [Partial<Ticket>] that may also be missing is an
      [option (js A)] or [option A];
    - an [async] function is a state transformer over the hook's state that
      ends in a settled promise, [Fulfilled v] or [Rejected e]. *)

From Stdlib Require Import String Ascii List ZArith Bool Lia.
From Stdlib Require Import Sorting.Sorted Sorting.Permutation.
Import ListNotations.

Open Scope string_scope.
Open Scope list_scope.
Open Scope Z_scope.

(* ================================================================== *)
(** ** JavaScript values *)

(** A property that holds [undefined], [null], or a value. *)
Inductive js (A : Type) : Type :=
| undefined
| null
| val (a : A).
Arguments undefined {A}.
Arguments null {A}.
Arguments val {A} a.

(** Truthiness of an optional string: [undefined], [null] and the empty
    string are falsy. *)
Definition truthy_str (v : js string) : bool :=
  match v with
  | val s => negb (s =? "")%string
  | _ => false
  end.

(** Truthiness of an optional object (a [Date], or an ISO string, which is
    never empty): only [undefined] and [null] are falsy. *)
Definition truthy {A : Type} (v : js A) : bool :=
  match v with
  | val _ => true
  | _ => false
  end.

(** [a === b] on optional strings. *)
Definition strict_eq (a b : js string) : bool :=
  match a, b with
  | undefined, undefined => true
  | null, null => true
  | val x, val y => (x =? y)%string
  | _, _ => false
  end.

(** [v || fallback] on an optional string. *)
Definition or_else (v : js string) (fallback : string) : string :=
  match v with
  | val s => if (s =? "")%string then fallback else s
  | _ => fallback
  end.

(** [arr.includes(s)] on an array of strings. *)
Definition includes (arr : list string) (s : string) : bool :=
  existsb (fun x => (x =? s)%string) arr.

(** Reading a key of a partial object: a missing key reads [undefined]. *)
Definition get {A : Type} (k : option (js A)) : js A :=
  match k with
  | Some v => v
  | None => undefined
  end.

(** A [Date] is modelled by its time value (milliseconds since the epoch).
    An Invalid Date has no time value and is no [Date] of this type; the
    [Date] objects a caller may hand to [updateTicket], valid or not, are
    the [DateObj] further down. *)
Definition Date := Z.

(** The ISO-8601 rendering of an instant, as the gateway's wire format has
    it. *)
Inductive IsoString : Type := Iso (t : Z).

(** [d.toISOString()] *)
Definition toISOString (d : Date) : IsoString := Iso d.

(** [new Date(s)] for an ISO-8601 string [s]. *)
Definition newDate (s : IsoString) : Date := match s with Iso t => t end.

(** A thrown value: an [Error] carries a [message]; other thrown values have
    none. *)
Record Err : Type := mkErr { message : js string }.

(** The [TypeError] raised by reading property [p] of [undefined]. *)
Definition TypeError_undefined (p : string) : Err :=
  mkErr (val ("Cannot read properties of undefined (reading '" ++ p ++ "')")%string).

(** [new Error(msg)] *)
Definition Error (msg : string) : Err := mkErr (val msg).

(** A settled promise. *)
Inductive Settled (A : Type) : Type :=
| Fulfilled (a : A)
| Rejected (e : Err).
Arguments Fulfilled {A} a.
Arguments Rejected {A} e.

(* ================================================================== *)
(** ** Data model *)

(** A timestamp field that one ingress path converts and another leaves in
    wire form: a [Date] object or the ISO string the gateway sent. *)
Inductive Stamp : Type :=
| OfDate (d : Date)
| OfIso (s : IsoString).

(** Modelled from the spec: the [Ticket] entity of [models/Ticket], which is
    not under src/. Section 3 lists its attributes; [new Ticket({...})] is
    taken to hold the fields it is given. The display-only profile
    projections are carried through every spread untouched and are left
    out. *)
Record Ticket : Type := mkTicket {
  id : string;
  title : string;
  description : string;
  location : string;
  priority : string;
  status : string;
  createdBy : string;
  assignedTo : js string;
  createdAt : Date;
  updatedAt : Date;
  assignedAt : js Date;
  resolvedAt : js Date;
  verifiedAt : js Stamp;
  verifiedBy : js string;
  dueDate : js Date
}.

(** Modelled from the spec: the raw record of the gateway (section 6), the
    ticket with every timestamp as an ISO-8601 string. *)
Record RawTicket : Type := mkRaw {
  raw_id : string;
  raw_title : string;
  raw_description : string;
  raw_location : string;
  raw_priority : string;
  raw_status : string;
  raw_createdBy : string;
  raw_assignedTo : js string;
  raw_createdAt : IsoString;
  raw_updatedAt : IsoString;
  raw_assignedAt : js IsoString;
  raw_resolvedAt : js IsoString;
  raw_verifiedAt : js IsoString;
  raw_verifiedBy : js string;
  raw_dueDate : js IsoString
}.

(** [Partial<Ticket>]: every key may be missing ([None]); an optional
    attribute that is present may still hold [undefined] or [null]. The
    dates it holds are valid; [UncheckedUpdates] further down is the partial
    ticket with [Date] objects of either kind. *)
Record TicketUpdates : Type := mkUpdates {
  u_id : option string;
  u_title : option string;
  u_description : option string;
  u_location : option string;
  u_priority : option string;
  u_status : option string;
  u_createdBy : option string;
  u_assignedTo : option (js string);
  u_createdAt : option Date;
  u_updatedAt : option Date;
  u_assignedAt : option (js Date);
  u_resolvedAt : option (js Date);
  u_verifiedAt : option (js Date);
  u_verifiedBy : option (js string);
  u_dueDate : option (js Date)
}.

(** The [dbUpdates] object of [updateTicket]: the keys of the updates, with
    [dueDate], [assignedAt], [resolvedAt] and [verifiedAt] in wire form. *)
Record DbUpdates : Type := mkDbUpdates {
  db_id : option string;
  db_title : option string;
  db_description : option string;
  db_location : option string;
  db_priority : option string;
  db_status : option string;
  db_createdBy : option string;
  db_assignedTo : option (js string);
  db_createdAt : option Date;
  db_updatedAt : option Date;
  db_assignedAt : option (js IsoString);
  db_resolvedAt : option (js IsoString);
  db_verifiedAt : option (js IsoString);
  db_verifiedBy : option (js string);
  db_dueDate : option (js IsoString)
}.

(** The object literal [{}] as a [Partial<Ticket>]. *)
Definition noUpdates : TicketUpdates :=
  mkUpdates None None None None None None None None None None None None None
            None None.

(** The object literal [{ status }]. *)
Definition statusUpdates (status_ : string) : TicketUpdates :=
  mkUpdates None None None None None (Some status_) None None None None
            None None None None None.

(** The session of [useAuth]: [user] and [profile] may each be [null]. *)
Record User : Type := mkUser { user_id : string }.
Record Profile : Type := mkProfile { role : string }.
Record Session : Type := mkSession {
  user : option User;
  profile : option Profile
}.

(** [user?.id] *)
Definition user_id_opt (s : Session) : js string :=
  match user s with
  | Some u => val (user_id u)
  | None => undefined
  end.

(** [profile?.role] *)
Definition role_opt (s : Session) : js string :=
  match profile s with
  | Some p => val (role p)
  | None => undefined
  end.

(* ================================================================== *)
(** ** The hook's state, its collaborators and its effects *)

(** What a store operation does besides changing its state, in the order it
    does it: calls of the ticket operations of the gateway [db], of the
    notification system, console output and toasts. The calls of the
    comment, note, activity and media operations of the gateway are not
    entered here: their answers are read off [DbAux]. *)
Inductive Effect : Type :=
| DbGetTickets (userId role_ : string)
| DbCreateTicket (userId : string) (fields : TicketUpdates)
| DbUpdateTicket (ticketId : string) (fields : DbUpdates)
| DbDeleteTicket (ticketId : string)
| NotifyCreated (t : Ticket)
| NotifyResolved (t : Ticket) (actor : string)
| NotifyAssigned (t : Ticket) (assignee actor : string)
| Console (level label : string)
| Toast (title_ description_ : string) (destructive : bool).

(** The three [useState] cells of [useTickets], and the effects so far. *)
Record Store : Type := mkStore {
  tickets : list Ticket;
  loading : bool;
  error : js string;
  effects : list Effect
}.

(** The state of the hook when it mounts. *)
Definition initialStore : Store := mkStore [] true null [].

(** The [{ data, error }] object a gateway write resolves with; [None] is a
    falsy [error], or a [data] that is [undefined]. *)
Record Response (A : Type) : Type := mkResponse {
  data : option A;
  error_ : option Err
}.
Arguments mkResponse {A} data error_.
Arguments data {A} r.
Arguments error_ {A} r.

(** The gateway [dbHelpers] of [lib/dbhelper], which is not under src/: each
    method is taken as it answers the call it gets. *)
Record DbHelpers : Type := mkDb {
  db_getTicketsWithRelations : string -> string -> Settled (list RawTicket);
  db_createTicket : string -> TicketUpdates -> Settled (Response RawTicket);
  db_updateTicket : string -> DbUpdates -> Settled (Response RawTicket);
  db_deleteTicket : string -> Settled (Response unit)
}.

(** The notification system of [useNotificationSystem], not under src/:
    each call resolves or rejects. *)
Record NotificationSystem : Type := mkNotif {
  notifyTicketCreated : Ticket -> Settled unit;
  notifyTicketResolved : Ticket -> string -> Settled unit;
  notifyTicketAssigned : Ticket -> string -> string -> Settled unit
}.

(** An [async] function body: it transforms the store and settles. *)
Definition M (A : Type) : Type := Store -> Settled A * Store.

Definition ret {A : Type} (a : A) : M A := fun s => (Fulfilled a, s).

Definition throw {A : Type} (e : Err) : M A := fun s => (Rejected e, s).

Definition bind {A B : Type} (m : M A) (k : A -> M B) : M B :=
  fun s =>
    match m s with
    | (Fulfilled a, s') => k a s'
    | (Rejected e, s') => (Rejected e, s')
    end.

(** [try { m } catch (e) { h e }] *)
Definition try_catch {A : Type} (m : M A) (h : Err -> M A) : M A :=
  fun s =>
    match m s with
    | (Fulfilled a, s') => (Fulfilled a, s')
    | (Rejected e, s') => h e s'
    end.

(** [try { m } finally { f }], for an [f] that does not throw. *)
Definition finally {A : Type} (m : M A) (f : Store -> Store) : M A :=
  fun s => let (r, s') := m s in (r, f s').

(** [await p] *)
Definition await {A : Type} (p : Settled A) : M A := fun s => (p, s).

Definition modify (f : Store -> Store) : M unit := fun s => (Fulfilled tt, f s).

Declare Scope js_scope.
Delimit Scope js_scope with js_m.
Notation "x <- m ;; k" := (bind m (fun x => k))
  (at level 61, m at next level, right associativity) : js_scope.
Notation "m ;; k" := (bind m (fun _ => k))
  (at level 61, right associativity) : js_scope.
Open Scope js_scope.

Definition setTickets (f : list Ticket -> list Ticket) : M unit :=
  modify (fun s => mkStore (f (tickets s)) (loading s) (error s) (effects s)).

Definition setLoadingIn (b : bool) (s : Store) : Store :=
  mkStore (tickets s) b (error s) (effects s).

Definition setLoading (b : bool) : M unit := modify (setLoadingIn b).

Definition setError (e : js string) : M unit :=
  modify (fun s => mkStore (tickets s) (loading s) e (effects s)).

Definition emit (e : Effect) : M unit :=
  modify (fun s => mkStore (tickets s) (loading s) (error s) (effects s ++ [e])).

Definition toast (t d : string) (destructive : bool) : M unit :=
  emit (Toast t d destructive).

Definition console (level label : string) : M unit :=
  emit (Console level label).

(* ================================================================== *)
(** ** Ingress and egress of timestamps *)

(** [x ? new Date(x) : undefined] *)
Definition dateOrUndefined (x : js IsoString) : js Date :=
  match x with
  | val s => val (newDate s)
  | _ => undefined
  end.

(** The transformation of [loadTickets] (lines 71-79) and of [updateTicket]
    (lines 232-240): every timestamp becomes a [Date]. *)
Definition transformTicket (r : RawTicket) : Ticket :=
  mkTicket (raw_id r) (raw_title r) (raw_description r) (raw_location r)
    (raw_priority r) (raw_status r) (raw_createdBy r) (raw_assignedTo r)
    (newDate (raw_createdAt r))
    (newDate (raw_updatedAt r))
    (dateOrUndefined (raw_assignedAt r))
    (dateOrUndefined (raw_resolvedAt r))
    (match dateOrUndefined (raw_verifiedAt r) with
     | val d => val (OfDate d)
     | _ => undefined
     end)
    (raw_verifiedBy r)
    (dateOrUndefined (raw_dueDate r)).

(** The transformation of [createTicket] (lines 123-130): [verifiedAt] is not
    among the converted keys and stays as the spread of [data] left it. *)
Definition transformCreated (r : RawTicket) : Ticket :=
  mkTicket (raw_id r) (raw_title r) (raw_description r) (raw_location r)
    (raw_priority r) (raw_status r) (raw_createdBy r) (raw_assignedTo r)
    (newDate (raw_createdAt r))
    (newDate (raw_updatedAt r))
    (dateOrUndefined (raw_assignedAt r))
    (dateOrUndefined (raw_resolvedAt r))
    (match raw_verifiedAt r with
     | val s => val (OfIso s)
     | null => null
     | undefined => undefined
     end)
    (raw_verifiedBy r)
    (dateOrUndefined (raw_dueDate r)).

(** [if (dbUpdates.k) dbUpdates.k = dbUpdates.k.toISOString()] on a key
    copied from the updates: a [Date] is rendered, anything falsy and a
    missing key stay as they are. *)
Definition isoOfKey (k : option (js Date)) : option (js IsoString) :=
  match k with
  | Some (val d) => Some (val (toISOString d))
  | Some null => Some null
  | Some undefined => Some undefined
  | None => None
  end.

(** [updates.status === s] *)
Definition status_is (updates : TicketUpdates) (s : string) : bool :=
  match u_status updates with
  | Some x => (x =? s)%string
  | None => false
  end.

(** Lines 193-214 of [updateTicket]: the fields sent to the gateway, for the
    acting user [uid] and the clock reading [now], when the dates of the
    updates are valid. On an Invalid Date [toISOString] throws in lines
    195-201; [checkDates] and [updateTicketUnchecked] further down have that
    path. *)
Definition dbUpdatesOf (uid : string) (now : Date) (updates : TicketUpdates)
  : DbUpdates :=
  let stampVerified :=
    status_is updates "verified" && negb (truthy (get (u_verifiedAt updates))) in
  mkDbUpdates
    (u_id updates) (u_title updates) (u_description updates)
    (u_location updates) (u_priority updates) (u_status updates)
    (u_createdBy updates) (u_assignedTo updates)
    (u_createdAt updates) (u_updatedAt updates)
    (if status_is updates "assigned" && negb (truthy (get (u_assignedAt updates)))
     then Some (val (toISOString now))
     else isoOfKey (u_assignedAt updates))
    (if status_is updates "resolved" && negb (truthy (get (u_resolvedAt updates)))
     then Some (val (toISOString now))
     else isoOfKey (u_resolvedAt updates))
    (if stampVerified
     then Some (val (toISOString now))
     else isoOfKey (u_verifiedAt updates))
    (if stampVerified
     then Some (val uid)
     else u_verifiedBy updates)
    (isoOfKey (u_dueDate updates)).

(* ================================================================== *)
(** ** The ticket store ([src/hooks/useTickets.ts]) *)

Section TicketStore.

Variable sess : Session.
Variable db : DbHelpers.
Variable ns : NotificationSystem.

(** [loadTickets] (lines 48-107). The inner [catch] only logs, so after a
    rejected fetch [data] is still [undefined] and [data.map] throws the
    [TypeError] that the outer [catch] receives. *)
Definition loadTickets : M unit :=
  match user sess, profile sess with
  | Some u, Some p =>
      finally
        (try_catch
           (setLoading true ;;
            setError null ;;
            data <- try_catch
                      (emit (DbGetTickets (user_id u) (role p)) ;;
                       d <- await (db_getTicketsWithRelations db (user_id u) (role p)) ;;
                       ret (Some d))
                      (fun _ => console "log" "" ;; ret None) ;;
            match data with
            | Some d => setTickets (fun _ => map transformTicket d)
            | None => throw (TypeError_undefined "map")
            end)
           (fun err =>
              console "error" "Error loading tickets:" ;;
              setError (message err) ;;
              toast "Error loading tickets"
                    (or_else (message err) "Failed to load tickets") true))
        (setLoadingIn false)
  | _, _ => ret tt
  end.

(** [createTicket] (lines 109-184). *)
Definition createTicket (ticketData : TicketUpdates) : M Ticket :=
  match user sess with
  | None => throw (Error "User not authenticated")
  | Some u =>
      try_catch
        (transformedTicket <-
           try_catch
             (emit (DbCreateTicket (user_id u) ticketData) ;;
              r <- await (db_createTicket db (user_id u) ticketData) ;;
              match error_ r with
              | Some e => throw e
              | None =>
                  match data r with
                  | Some d => ret (transformCreated d)
                  | None => throw (TypeError_undefined "createdAt")
                  end
              end)
             (fun e => throw e) ;;
         setTickets (fun prev => transformedTicket :: prev) ;;
         try_catch
           (emit (NotifyCreated transformedTicket) ;;
            await (notifyTicketCreated ns transformedTicket))
           (fun _ =>
              console "warn" "Failed to send ticket creation notifications:") ;;
         toast "Ticket created" "Your ticket has been created successfully."
               false ;;
         ret transformedTicket)
        (fun e =>
           console "error" "Error creating ticket:" ;;
           toast "Failed to create ticket"
                 (or_else (message e)
                          "An error occurred while creating the ticket.")
                 true ;;
           throw e)
  end.

(** [prev.map( t => t.id === ticketId ? transformedTicket : t )] *)
Definition replaceById (ticketId : string) (t' : Ticket) (prev : list Ticket)
  : list Ticket :=
  map (fun t => if (id t =? ticketId)%string then t' else t) prev.

(** Lines 244-255 of [updateTicket]: the notifications of an update, inside
    their own [try]. *)
Definition notifyUpdate (uid : string) (updates : TicketUpdates)
  (transformedTicket : Ticket) : M unit :=
  try_catch
    ((if status_is updates "resolved"
      then emit (NotifyResolved transformedTicket uid) ;;
           await (notifyTicketResolved ns transformedTicket uid)
      else ret tt) ;;
     match get (u_assignedTo updates) with
     | val a =>
         if negb (a =? "")%string
            && negb (a =? createdBy transformedTicket)%string
         then emit (NotifyAssigned transformedTicket a uid) ;;
              await (notifyTicketAssigned ns transformedTicket a uid)
         else ret tt
     | _ => ret tt
     end)
    (fun _ => console "warn" "Failed to send ticket update notifications:").

(** [updateTicket] (lines 186-282) on updates whose dates are valid; [now]
    is what [new Date()] reads. [updateTicketStatus] and [assignTicket] call
    it with updates that hold no date of the caller's. *)
Definition updateTicket (now : Date) (ticketId : string)
  (updates : TicketUpdates) : M Ticket :=
  match user sess with
  | None => throw (Error "User not authenticated")
  | Some u =>
      try_catch
        (let dbUpdates := dbUpdatesOf (user_id u) now updates in
         ticketData <-
           try_catch
             (emit (DbUpdateTicket ticketId dbUpdates) ;;
              r <- await (db_updateTicket db ticketId dbUpdates) ;;
              match error_ r with
              | Some e => throw e
              | None => ret (data r)
              end)
             (fun e => throw e) ;;
         transformedTicket <-
           match ticketData with
           | Some d => ret (transformTicket d)
           | None => throw (TypeError_undefined "createdAt")
           end ;;
         setTickets (replaceById ticketId transformedTicket) ;;
         notifyUpdate (user_id u) updates transformedTicket ;;
         toast "Ticket updated" "The ticket has been updated successfully."
               false ;;
         ret transformedTicket)
        (fun e =>
           console "log" "" ;;
           toast "Failed to update ticket"
                 (or_else (message e)
                          "An error occurred while updating the ticket.")
                 true ;;
           throw e)
  end.

(** [deleteTicket] (lines 284-331). The inner [catch] only logs. *)
Definition deleteTicket (ticketId : string) : M unit :=
  match user sess with
  | None => throw (Error "User not authenticated")
  | Some _ =>
      try_catch
        (try_catch
           (emit (DbDeleteTicket ticketId) ;;
            r <- await (db_deleteTicket db ticketId) ;;
            match error_ r with
            | Some e => throw e
            | None => ret tt
            end)
           (fun _ => console "log" "") ;;
         setTickets (filter (fun t => negb (id t =? ticketId)%string)) ;;
         toast "Ticket deleted" "The ticket has been deleted successfully."
               false)
        (fun e =>
           console "error" "Error deleting ticket:" ;;
           toast "Failed to delete ticket"
                 (or_else (message e)
                          "An error occurred while deleting the ticket.")
                 true ;;
           throw e)
  end.

(** The object literal of [assignTicket] (lines 335-339): three keys, all
    present; [assignedTo ? x : y] tests the truthiness of a [string | null],
    for which [null] and the empty string are falsy. *)
Definition assignUpdates (now : Date) (assignedTo : option string)
  : TicketUpdates :=
  let a := match assignedTo with Some s => val s | None => null end in
  mkUpdates None None None None None
    (Some (if truthy_str a then "assigned" else "open"))
    None
    (Some a)
    None None
    (Some (if truthy_str a then val now else undefined))
    None None None None.

(** [assignTicket] (lines 333-341). *)
Definition assignTicket (now : Date) (ticketId : string)
  (assignedTo : option string) : M Ticket :=
  updateTicket now ticketId (assignUpdates now assignedTo).

(** [updateTicketStatus] (lines 463-467). *)
Definition updateTicketStatus (now : Date) (ticketId : string)
  (status_ : string) : M Ticket :=
  updateTicket now ticketId (statusUpdates status_).

End TicketStore.

(** The statuses after which a ticket is no longer overdue. *)
Definition doneStatuses : list string := ["resolved"; "verified"; "closed"].

(** The predicate of [getOverdueTickets] (lines 548-552):
    [ticket.dueDate && ticket.dueDate < now && !done.includes(ticket.status)]. *)
Definition isOverdue (now : Date) (ticket : Ticket) : bool :=
  match dueDate ticket with
  | val d => (d <? now) && negb (includes doneStatuses (status ticket))
  | _ => false
  end.

(** [getOverdueTickets] (lines 544-554); [now] is what [new Date()] reads. *)
Definition getOverdueTickets (now : Date) (tickets_ : list Ticket)
  : list Ticket :=
  filter (isOverdue now) tickets_.

(* ================================================================== *)
(** ** The role-scoped views ([src/pages/TicketsPage.tsx]) *)

(** [c.toLowerCase()] on one character; strings are modelled as sequences of
    bytes, and only the letters A-Z have a lower case among them. *)
Definition lower_ascii (c : ascii) : ascii :=
  let n := nat_of_ascii c in
  if (Nat.leb 65 n && Nat.leb n 90)%bool then ascii_of_nat (n + 32) else c.

(** [s.toLowerCase()] on ASCII text; a letter outside ASCII, which
    JavaScript would lower, is left as it is. *)
Fixpoint toLowerCase (s : string) : string :=
  match s with
  | EmptyString => EmptyString
  | String c s' => String (lower_ascii c) (toLowerCase s')
  end.

(** [s.includes(sub)] on strings: [sub] occurs in [s]. *)
Fixpoint str_includes (s sub : string) : bool :=
  String.prefix sub s
  || match s with
     | EmptyString => false
     | String _ s' => str_includes s' sub
     end.

(** The four filter cells of the page (lines 40-43). *)
Record Filters : Type := mkFilters {
  searchTerm : string;
  statusFilter : string;
  priorityFilter : string;
  assignedFilter : string
}.

(** The sort key of the page (line 44). *)
Inductive SortBy : Type :=
| created
| updated
| by_priority
| due_date.

(** [canViewAllTickets] (lines 46-49). *)
Definition canViewAllTickets (sess : Session) : bool :=
  strict_eq (role_opt sess) (val "admin")
  || strict_eq (role_opt sess) (val "supervisor").

(** [ticket.createdBy === user?.id || ticket.assignedTo === user?.id] *)
Definition isOwnTicket (sess : Session) (ticket : Ticket) : bool :=
  strict_eq (val (createdBy ticket)) (user_id_opt sess)
  || strict_eq (assignedTo ticket) (user_id_opt sess).

(** The visibility step of [getFilteredTickets] (lines 105-118), which
    [getTicketCounts] repeats (lines 171-173). *)
Definition userTickets (sess : Session) (tickets_ : list Ticket)
  : list Ticket :=
  if canViewAllTickets sess then tickets_
  else filter (isOwnTicket sess) tickets_.

(** The predicate of the second filter of [getFilteredTickets]
    (lines 120-136). *)
Definition matchesFilters (f : Filters) (ticket : Ticket) : bool :=
  let term := toLowerCase (searchTerm f) in
  let matchesSearch :=
    str_includes (toLowerCase (title ticket)) term
    || str_includes (toLowerCase (description ticket)) term
    || str_includes (toLowerCase (location ticket)) term in
  let matchesStatus :=
    (statusFilter f =? "all")%string
    || (status ticket =? statusFilter f)%string in
  let matchesPriority :=
    (priorityFilter f =? "all")%string
    || (priority ticket =? priorityFilter f)%string in
  let matchesAssigned :=
    (assignedFilter f =? "all")%string
    || ((assignedFilter f =? "unassigned")%string
        && negb (truthy_str (assignedTo ticket)))
    || strict_eq (assignedTo ticket) (val (assignedFilter f)) in
  matchesSearch && matchesStatus && matchesPriority && matchesAssigned.

(** [getFilteredTickets] (lines 103-138). *)
Definition getFilteredTickets (sess : Session) (f : Filters)
  (tickets_ : list Ticket) : list Ticket :=
  filter (matchesFilters f) (userTickets sess tickets_).

(** A JavaScript number as a comparator returns it: an integer, or [NaN]. *)
Inductive number : Type :=
| num (z : Z)
| NaN.

(** [x - y] on numbers: [NaN] as soon as an operand is. *)
Definition number_sub (x y : number) : number :=
  match x, y with
  | num a, num b => num (a - b)
  | _, _ => NaN
  end.

(** The names an object literal inherits from [Object.prototype]: looking
    one of them up in [priorityOrder] yields a function (or, for
    [__proto__], the prototype object), which is truthy and not a number. *)
Definition inheritedMember (p : string) : bool :=
  includes ["constructor"; "toString"; "valueOf"; "toLocaleString";
            "hasOwnProperty"; "isPrototypeOf"; "propertyIsEnumerable";
            "__proto__"; "__defineGetter__"; "__defineSetter__";
            "__lookupGetter__"; "__lookupSetter__"] p.

(** [priorityOrder[p] || 0] (lines 148-149) as the operand of the
    subtraction: the rank of the four priorities, [NaN] for a name the
    object literal inherits, [0] for anything else. *)
Definition priorityOrder (p : string) : number :=
  if (p =? "critical")%string then num 4
  else if (p =? "high")%string then num 3
  else if (p =? "medium")%string then num 2
  else if (p =? "low")%string then num 1
  else if inheritedMember p then NaN
  else num 0.

(** The comparator of [sortedTickets] (lines 143-167), as the number it
    returns. [new Date(d).getTime()] of a [Date] is its time value. *)
Definition compareTickets (sortBy : SortBy) (a b : Ticket) : number :=
  match sortBy with
  | by_priority =>
      number_sub (priorityOrder (priority b)) (priorityOrder (priority a))
  | updated => num (updatedAt b - updatedAt a)
  | due_date =>
      match dueDate a, dueDate b with
      | val da, val db_ => num (da - db_)
      | val _, _ => num (-1)
      | _, val _ => num 1
      | _, _ => num 0
      end
  | created => num (createdAt b - createdAt a)
  end.

(** How [Array.prototype.sort] reads what the comparator returns: a [NaN]
    counts as [+0]. *)
Definition sortOrder (v : number) : Z :=
  match v with
  | num z => z
  | NaN => 0
  end.

(** [Array.prototype.sort] with a comparator is a stable sort: [x], which
    stood before every element of [l], goes in front of the first element it
    does not compare greater than. *)
Fixpoint insertSorted (cmp : Ticket -> Ticket -> Z) (x : Ticket)
  (l : list Ticket) : list Ticket :=
  match l with
  | [] => [x]
  | y :: l' => if cmp x y <=? 0 then x :: l else y :: insertSorted cmp x l'
  end.

Definition sortWith (cmp : Ticket -> Ticket -> Z) (l : list Ticket)
  : list Ticket :=
  fold_right (insertSorted cmp) [] l.

(** [sortedTickets] (line 143): [[...filteredTickets].sort(compare)]. Where
    the comparator returns a [NaN] it is no consistent order, and the order
    [Array.prototype.sort] then produces is left to the engine; the
    properties of the order below are stated for comparators that are
    consistent. *)
Definition sortedTickets (sortBy : SortBy) (filteredTickets : list Ticket)
  : list Ticket :=
  sortWith (fun a b => sortOrder (compareTickets sortBy a b)) filteredTickets.

(** The object [getTicketCounts] returns (lines 175-185). *)
Record Counts : Type := mkCounts {
  all : nat;
  assigned : nat;
  created_ : nat;
  unassigned : nat;
  overdue : nat
}.

(** [getTicketCounts] (lines 170-186); [now] is what [new Date()] reads, and
    [new Date(t.dueDate)] copies the [Date] it is given. *)
Definition getTicketCounts (sess : Session) (now : Date)
  (tickets_ : list Ticket) : Counts :=
  let allUserTickets := userTickets sess tickets_ in
  mkCounts
    (length allUserTickets)
    (length (filter (fun t => strict_eq (assignedTo t) (user_id_opt sess))
                    allUserTickets))
    (length (filter (fun t => strict_eq (val (createdBy t)) (user_id_opt sess))
                    allUserTickets))
    (if canViewAllTickets sess
     then length (filter (fun t => negb (truthy_str (assignedTo t)))
                         allUserTickets)
     else 0%nat)
    (length (filter (fun t =>
                       truthy (dueDate t)
                       && match dueDate t with
                          | val d => d <? now
                          | _ => false
                          end
                       && negb (includes doneStatuses (status t)))
                    allUserTickets)).

(* ================================================================== *)
(** ** The view rules in the specification's words *)

(** Section 4.2, overdue: the due date is set, it is in the past relative to
    the evaluation time, and the status is none of resolved, verified,
    closed. *)
Definition Overdue (now : Z) (t : Ticket) : Prop :=
  (exists d, dueDate t = val d /\ d < now)
  /\ status t <> "resolved" /\ status t <> "verified" /\ status t <> "closed".

(** Section 4.2, sort by due date: a ticket without a due date never stands
    before one that has a due date, and two due dates stand soonest first. *)
Definition dueOrdered (a b : Ticket) : Prop :=
  match dueDate a, dueDate b with
  | val x, val y => x <= y
  | val _, _ => True
  | _, val _ => False
  | _, _ => True
  end.

(** Section 4.2, sort by priority: rank critical=4 > high=3 > medium=2 >
    low=1; unknown priority ranks 0. *)
Definition priorityRank (p : string) : Z :=
  if (p =? "critical")%string then 4
  else if (p =? "high")%string then 3
  else if (p =? "medium")%string then 2
  else if (p =? "low")%string then 1
  else 0.

(** Section 4.2, visibility for a role that is neither admin nor supervisor:
    the ticket was created by the user or is assigned to the user. *)
Definition Own (userId : js string) (t : Ticket) : Prop :=
  val (createdBy t) = userId \/ assignedTo t = userId.

(* ================================================================== *)
(** ** The gateway contract, and gateways to run the store against *)

(** Modelled from the spec: the contract of the gateway's [updateTicket]
    (section 6, [lib/dbhelper] is not under src/): it "returns the full
    updated canonical record", so the record it resolves with holds every
    attribute it was sent, an attribute sent empty being cleared. The
    identity and the bookkeeping stamps ([id], [createdBy], [createdAt],
    [updatedAt]) belong to the gateway and lie outside the contract. *)
Definition reflects (f : DbUpdates) (d : RawTicket) : Prop :=
  (forall v, db_title f = Some v -> raw_title d = v)
  /\ (forall v, db_description f = Some v -> raw_description d = v)
  /\ (forall v, db_location f = Some v -> raw_location d = v)
  /\ (forall v, db_priority f = Some v -> raw_priority d = v)
  /\ (forall v, db_status f = Some v -> raw_status d = v)
  /\ (forall v, db_assignedTo f = Some v -> raw_assignedTo d = v)
  /\ (forall v, db_assignedAt f = Some v -> raw_assignedAt d = v)
  /\ (forall v, db_resolvedAt f = Some v -> raw_resolvedAt d = v)
  /\ (forall v, db_verifiedAt f = Some v -> raw_verifiedAt d = v)
  /\ (forall v, db_verifiedBy f = Some v -> raw_verifiedBy d = v)
  /\ (forall v, db_dueDate f = Some v -> raw_dueDate d = v).

(** [k ?? old]: the value of a key that was sent, the old value otherwise. *)
Definition sentOr {A : Type} (k : option A) (old : A) : A :=
  match k with
  | Some v => v
  | None => old
  end.

(** Modelled from the spec: the record a gateway holding [r] answers an
    update with (sections 3 and 6): the attributes sent replace the old
    ones, and [updatedAt] is bumped to the gateway's clock. *)
Definition applyFields (serverNow : Z) (r : RawTicket) (f : DbUpdates)
  : RawTicket :=
  mkRaw (raw_id r)
    (sentOr (db_title f) (raw_title r))
    (sentOr (db_description f) (raw_description r))
    (sentOr (db_location f) (raw_location r))
    (sentOr (db_priority f) (raw_priority r))
    (sentOr (db_status f) (raw_status r))
    (raw_createdBy r)
    (sentOr (db_assignedTo f) (raw_assignedTo r))
    (raw_createdAt r)
    (Iso serverNow)
    (sentOr (db_assignedAt f) (raw_assignedAt r))
    (sentOr (db_resolvedAt f) (raw_resolvedAt r))
    (sentOr (db_verifiedAt f) (raw_verifiedAt r))
    (sentOr (db_verifiedBy f) (raw_verifiedBy r))
    (sentOr (db_dueDate f) (raw_dueDate r)).

(** Modelled from the spec: the record a gateway answers a creation with
    (section 3: a generated id, [createdAt = updatedAt = now], status
    [open]). *)
Definition createdRecord (newId : string) (serverNow : Z) (uid : string)
  (f : TicketUpdates) : RawTicket :=
  mkRaw newId
    (sentOr (u_title f) "") (sentOr (u_description f) "")
    (sentOr (u_location f) "") (sentOr (u_priority f) "medium")
    "open" uid
    (get (u_assignedTo f))
    (Iso serverNow) (Iso serverNow)
    undefined undefined undefined undefined
    (match get (u_dueDate f) with
     | val d => val (toISOString d)
     | _ => undefined
     end).

(** Modelled from the spec: a gateway over a table of records (section 6).
    [updateTicket] and [deleteTicket] fail when the ticket does not exist. *)
Definition tableDb (rows : list RawTicket) (newId : string) (serverNow : Z)
  : DbHelpers :=
  let lookup i := find (fun r => (raw_id r =? i)%string) rows in
  mkDb
    (fun _ _ => Fulfilled rows)
    (fun uid f =>
       Fulfilled (mkResponse (Some (createdRecord newId serverNow uid f)) None))
    (fun i f =>
       match lookup i with
       | Some r => Fulfilled (mkResponse (Some (applyFields serverNow r f)) None)
       | None => Rejected (Error "Ticket not found")
       end)
    (fun i =>
       match lookup i with
       | Some _ => Fulfilled (mkResponse (Some tt) None)
       | None => Rejected (Error "Ticket not found")
       end).

(** A gateway that is out of reach: every call rejects with [e]. *)
Definition failingDb (e : Err) : DbHelpers :=
  mkDb (fun _ _ => Rejected e) (fun _ _ => Rejected e)
       (fun _ _ => Rejected e) (fun _ => Rejected e).

(** A gateway whose writes resolve with [{ data: undefined, error: e }]. *)
Definition refusingDb (e : Err) : DbHelpers :=
  mkDb (fun _ _ => Rejected e)
       (fun _ _ => Fulfilled (mkResponse None (Some e)))
       (fun _ _ => Fulfilled (mkResponse None (Some e)))
       (fun _ => Fulfilled (mkResponse None (Some e))).

(** Notification systems that always deliver, and that never do. *)
Definition quietNotifications : NotificationSystem :=
  mkNotif (fun _ => Fulfilled tt) (fun _ _ => Fulfilled tt)
          (fun _ _ _ => Fulfilled tt).

Definition brokenNotifications (e : Err) : NotificationSystem :=
  mkNotif (fun _ => Rejected e) (fun _ _ => Rejected e)
          (fun _ _ _ => Rejected e).

(** The gateway's creation failed: the promise rejected with [e], or it
    resolved with a truthy [error] [e]. *)
Definition createFails (db : DbHelpers) (uid : string)
  (ticketData : TicketUpdates) (e : Err) : Prop :=
  db_createTicket db uid ticketData = Rejected e
  \/ exists r, db_createTicket db uid ticketData = Fulfilled r
               /\ error_ r = Some e.

(** The gateway's creation succeeded with the record [d]. *)
Definition createSucceeds (db : DbHelpers) (uid : string)
  (ticketData : TicketUpdates) (d : RawTicket) : Prop :=
  db_createTicket db uid ticketData = Fulfilled (mkResponse (Some d) None).

(** The gateway's update succeeded with the record [d]. *)
Definition updateSucceeds (db : DbHelpers) (ticketId : string)
  (fields : DbUpdates) (d : RawTicket) : Prop :=
  db_updateTicket db ticketId fields = Fulfilled (mkResponse (Some d) None).

(* ------------------------------------------------------------------ *)
(** *** Sample data *)

Definition engineerSession : Session :=
  mkSession (Some (mkUser "eng-1")) (Some (mkProfile "field_engineer")).

Definition supervisorSession : Session :=
  mkSession (Some (mkUser "sup-1")) (Some (mkProfile "supervisor")).

Definition jan01 : Z := 1704067200000.  (* 2024-01-01T00:00:00.000Z *)
Definition mar01 : Z := 1709251200000.  (* 2024-03-01T00:00:00.000Z *)
Definition jun01 : Z := 1717200000000.  (* 2024-06-01T00:00:00.000Z *)

(** A raw ticket created by [by_] on 2024-01-01, open and unassigned. *)
Definition rawTicket (i by_ : string) : RawTicket :=
  mkRaw i "Leaking valve" "Valve 7 drips" "Plant B" "high" "open" by_
        undefined (Iso jan01) (Iso jan01) undefined undefined undefined
        undefined undefined.

(** A local ticket with the given status and due date. *)
Definition ticketDue (i st_ : string) (due : js Date) : Ticket :=
  mkTicket i "Leaking valve" "Valve 7 drips" "Plant B" "high" st_ "eng-2"
           undefined jan01 jan01 undefined undefined undefined undefined due.

Definition noFilters : Filters := mkFilters "" "all" "all" "all".

Definition networkError : Err := Error "Network request failed".

(** The gateway's table holds [t1], [t2] and a ticket [t3] that the local
    collection has not loaded; its clock reads 2024-06-01. *)
Definition sampleDb : DbHelpers :=
  tableDb [rawTicket "t1" "eng-2"; rawTicket "t2" "eng-2";
           rawTicket "t3" "eng-2"] "t9" jun01.

(** The record of [t1] once the supervisor has assigned it to [eng-1] on
    2024-03-01, and a gateway whose table holds it. *)
Definition assignedRow : RawTicket :=
  applyFields jun01 (rawTicket "t1" "eng-2")
    (dbUpdatesOf "sup-1" mar01 (assignUpdates mar01 (Some "eng-1"))).

Definition sampleDbAssigned : DbHelpers :=
  tableDb [assignedRow; rawTicket "t2" "eng-2"] "t9" jun01.

(** A store that has loaded the tickets [t1] and [t2] of another engineer. *)
Definition loadedStore : Store :=
  mkStore [transformTicket (rawTicket "t1" "eng-2");
           transformTicket (rawTicket "t2" "eng-2")]
          false null [].

(* ================================================================== *)
(** ** The rest of the store ([src/hooks/useTickets.ts]) *)

(** Modelled from the spec: a raw activity and a raw media entry of the
    gateway (section 6; [types/ticket] is not under src/): the [createdAt]
    stamp in wire form, and the other properties, which the spread copies
    untouched. *)
Record RawActivity : Type := mkRawActivity {
  ract_rest : string;
  ract_createdAt : IsoString
}.

Record Activity : Type := mkActivity {
  act_rest : string;
  act_createdAt : Date
}.

Record RawMedia : Type := mkRawMedia {
  rmedia_rest : string;
  rmedia_createdAt : IsoString
}.

Record TicketMedia : Type := mkTicketMedia {
  media_rest : string;
  media_createdAt : Date
}.

(** The gateway methods besides the four ticket methods, each taken as it
    answers the call it gets. The effect log records the calls of the ticket
    methods; these calls show in their answers only. *)
Record DbAux : Type := mkDbAux {
  db_addTicketComment : string -> string -> string -> Settled (Response unit);
  db_addTicketNote : string -> string -> string -> Settled (Response unit);
  db_getTicketActivities : string -> Settled (list RawActivity);
  db_getTicketMedia : string -> Settled (list RawMedia)
}.

(** [{ ...activity, createdAt: new Date( activity.createdAt ) }] *)
Definition transformActivity (a : RawActivity) : Activity :=
  mkActivity (ract_rest a) (newDate (ract_createdAt a)).

(** [{ ...media, createdAt: new Date( media.createdAt ) }] *)
Definition transformMedia (m : RawMedia) : TicketMedia :=
  mkTicketMedia (rmedia_rest m) (newDate (rmedia_createdAt m)).

Section TicketStoreRest.

Variable sess : Session.
Variable db : DbHelpers.
Variable aux : DbAux.

(** The first effect of the hook (lines 18-31): load when there is a user
    and a profile, otherwise empty the collection and stop loading. *)
Definition sessionEffect : M unit :=
  match user sess, profile sess with
  | Some _, Some _ => loadTickets sess db
  | _, _ => setTickets (fun _ => []) ;; setLoading false
  end.

(** [addComment] (lines 343-381). The call of the gateway is the reading of
    [db_addTicketComment aux]; it leaves no entry in the effect log. *)
Definition addComment (ticketId comment : string) : M unit :=
  match user sess with
  | None => throw (Error "User not authenticated")
  | Some u =>
      try_catch
        (r <- await (db_addTicketComment aux (user_id u) ticketId comment) ;;
         match error_ r with
         | Some e => throw e
         | None =>
             toast "Comment added" "Your comment has been added to the ticket."
                   false
         end)
        (fun e =>
           console "error" "Error adding comment:" ;;
           toast "Failed to add comment"
                 (or_else (message e)
                          "An error occurred while adding the comment.")
                 true ;;
           throw e)
  end.

(** [addNote] (lines 469-507). The call of the gateway is the reading of
    [db_addTicketNote aux]; it leaves no entry in the effect log. *)
Definition addNote (ticketId note : string) : M unit :=
  match user sess with
  | None => throw (Error "User not authenticated")
  | Some u =>
      try_catch
        (r <- await (db_addTicketNote aux (user_id u) ticketId note) ;;
         match error_ r with
         | Some e => throw e
         | None =>
             toast "Note added" "Your note has been added to the ticket." false
         end)
        (fun e =>
           console "error" "Error adding note:" ;;
           toast "Failed to add note"
                 (or_else (message e)
                          "An error occurred while adding the note.")
                 true ;;
           throw e)
  end.

(** [getTicketActivities] (lines 383-429). The inner [catch] logs and
    toasts, [data] stays [undefined], and [data.map] throws into the outer
    [catch], which toasts again and returns [[]]. *)
Definition getTicketActivities (ticketId : string) : M (list Activity) :=
  try_catch
    (data <- try_catch
               (d <- await (db_getTicketActivities aux ticketId) ;;
                ret (Some d))
               (fun e =>
                  console "log" "" ;;
                  toast "Failed to load activities"
                        (or_else (message e)
                           "An error occurred while loading ticket activities.")
                        true ;;
                  ret None) ;;
     match data with
     | Some d => ret (map transformActivity d)
     | None => throw (TypeError_undefined "map")
     end)
    (fun e =>
       console "error" "Error loading ticket activities:" ;;
       toast "Failed to load activities"
             (or_else (message e)
                      "An error occurred while loading ticket activities.")
             true ;;
       ret []).

(** [getTicketMedia] (lines 431-461). *)
Definition getTicketMedia (ticketId : string) : M (list TicketMedia) :=
  try_catch
    (d <- await (db_getTicketMedia aux ticketId) ;;
     ret (map transformMedia d))
    (fun e =>
       console "error" "Error loading ticket media:" ;;
       toast "Failed to load media"
             (or_else (message e)
                      "An error occurred while loading ticket media.")
             true ;;
       ret []).

(** [getMyTickets] (lines 510-516). *)
Definition getMyTickets (tickets_ : list Ticket) : list Ticket :=
  match user sess with
  | None => []
  | Some u => filter (fun t => (createdBy t =? user_id u)%string) tickets_
  end.

(** [getAssignedTickets] (lines 518-524). *)
Definition getAssignedTickets (tickets_ : list Ticket) : list Ticket :=
  match user sess with
  | None => []
  | Some u =>
      filter (fun t => strict_eq (assignedTo t) (val (user_id u))) tickets_
  end.

End TicketStoreRest.

(** [getUnassignedTickets] (lines 526-530). *)
Definition getUnassignedTickets (tickets_ : list Ticket) : list Ticket :=
  filter (fun t => negb (truthy_str (assignedTo t))
                   && (status t =? "open")%string) tickets_.

(** [getTicketsByStatus] (lines 532-536). *)
Definition getTicketsByStatus (status_ : string) (tickets_ : list Ticket)
  : list Ticket :=
  filter (fun t => (status t =? status_)%string) tickets_.

(** [getTicketsByPriority] (lines 538-542). *)
Definition getTicketsByPriority (priority_ : string) (tickets_ : list Ticket)
  : list Ticket :=
  filter (fun t => (priority t =? priority_)%string) tickets_.

(* ================================================================== *)
(** ** The rest of the page, and the callers of the hooks *)

(** [handleTabChange] (TicketsPage.tsx, lines 222-247), on the two filter
    cells it sets; a value that is no tab leaves them. *)
Definition handleTabChange (sess : Session) (value : string) (f : Filters)
  : Filters :=
  let set st_ as_ :=
    mkFilters (searchTerm f) st_ (priorityFilter f) as_ in
  if (value =? "all")%string then set "all" "all"
  else if (value =? "assigned")%string
       then set "all" (or_else (user_id_opt sess) "")
  else if (value =? "created")%string then set "all" "all"
  else if (value =? "unassigned")%string then set "all" "unassigned"
  else if (value =? "overdue")%string then set "all" "all"
  else f.

(** What [hasRole] of [useAuth] returns (useAuth.ts, line 478):
    [profile?.role && roles.includes( role )] is [undefined] without a
    profile, the empty role itself when the role is empty, and a boolean
    otherwise. *)
Inductive RoleCheck : Type :=
| NoProfile
| EmptyRole
| Included (b : bool).

Definition hasRole (sess : Session) (roles : list string) : RoleCheck :=
  match profile sess with
  | None => NoProfile
  | Some p =>
      if (role p =? "")%string then EmptyRole
      else Included (includes roles (role p))
  end.

(** The truthiness of what [hasRole] returns. *)
Definition roleCheck_truthy (r : RoleCheck) : bool :=
  match r with
  | Included b => b
  | _ => false
  end.

(** The ticket figures that the admin dashboard computes in its render,
    over the collection of that render (src/unnamed/part_000, lines
    174-179). *)
Definition criticalTickets (tickets_ : list Ticket) : nat :=
  length (filter (fun t => (priority t =? "critical")%string) tickets_).

Definition overdueTickets (now : Date) (tickets_ : list Ticket) : nat :=
  length (filter (fun t =>
                    truthy (dueDate t)
                    && match dueDate t with
                       | val d => d <? now
                       | _ => false
                       end
                    && negb (includes doneStatuses (status t)))
                 tickets_).

(* ------------------------------------------------------------------ *)
(** *** More sample data *)

Definition signedOutSession : Session := mkSession None None.

(** Auxiliary gateways that always answer, and that never do. *)
Definition quietAux : DbAux :=
  mkDbAux (fun _ _ _ => Fulfilled (mkResponse (Some tt) None))
          (fun _ _ _ => Fulfilled (mkResponse (Some tt) None))
          (fun _ => Fulfilled [mkRawActivity "created" (Iso jan01);
                               mkRawActivity "assigned" (Iso mar01)])
          (fun _ => Fulfilled [mkRawMedia "photo.jpg" (Iso jan01)]).

Definition failingAux (e : Err) : DbAux :=
  mkDbAux (fun _ _ _ => Rejected e) (fun _ _ _ => Rejected e)
          (fun _ => Rejected e) (fun _ => Rejected e).

(* ================================================================== *)
(** ** updateTicket as a caller reaches it *)

(** A [Date] object as a caller may pass it: with a time value, or an
    Invalid Date, on which [toISOString] throws a [RangeError]. *)
Inductive DateObj : Type :=
| ValidDate (t : Z)
| InvalidDate.

(** The [Partial<Ticket>] a caller passes to [updateTicket], the [Date]
    objects under the four keys that [updateTicket] converts being of either
    kind. *)
Record UncheckedUpdates : Type := mkUnchecked {
  c_id : option string;
  c_title : option string;
  c_description : option string;
  c_location : option string;
  c_priority : option string;
  c_status : option string;
  c_createdBy : option string;
  c_assignedTo : option (js string);
  c_createdAt : option Date;
  c_updatedAt : option Date;
  c_assignedAt : option (js DateObj);
  c_resolvedAt : option (js DateObj);
  c_verifiedAt : option (js DateObj);
  c_verifiedBy : option (js string);
  c_dueDate : option (js DateObj)
}.

(** One key through [if (k) k = k.toISOString()]: [None] when the key holds
    an Invalid Date, so that [toISOString] throws. *)
Definition checkedKey (k : option (js DateObj)) : option (option (js Date)) :=
  match k with
  | Some (val (ValidDate t)) => Some (Some (val t))
  | Some (val InvalidDate) => None
  | Some null => Some (Some null)
  | Some undefined => Some (Some undefined)
  | None => Some None
  end.

(** Lines 195-201 of [updateTicket]: the four conversions in the order of
    the source, [dueDate], [assignedAt], [resolvedAt], [verifiedAt]; [None]
    when one of them throws, else the updates with their dates valid. *)
Definition checkDates (p : UncheckedUpdates) : option TicketUpdates :=
  match checkedKey (c_dueDate p) with
  | None => None
  | Some due =>
      match checkedKey (c_assignedAt p) with
      | None => None
      | Some asg =>
          match checkedKey (c_resolvedAt p) with
          | None => None
          | Some res =>
              match checkedKey (c_verifiedAt p) with
              | None => None
              | Some ver =>
                  Some (mkUpdates (c_id p) (c_title p) (c_description p)
                          (c_location p) (c_priority p) (c_status p)
                          (c_createdBy p) (c_assignedTo p) (c_createdAt p)
                          (c_updatedAt p) asg res ver (c_verifiedBy p) due)
              end
          end
      end
  end.

(** Updates whose dates are valid, as a caller passes them. *)
Definition unchecked (u : TicketUpdates) : UncheckedUpdates :=
  let lift k :=
    match k with
    | Some (val t) => Some (val (ValidDate t))
    | Some null => Some null
    | Some undefined => Some undefined
    | None => None
    end in
  mkUnchecked (u_id u) (u_title u) (u_description u) (u_location u)
    (u_priority u) (u_status u) (u_createdBy u) (u_assignedTo u)
    (u_createdAt u) (u_updatedAt u) (lift (u_assignedAt u))
    (lift (u_resolvedAt u)) (lift (u_verifiedAt u)) (u_verifiedBy u)
    (lift (u_dueDate u)).

(** The [RangeError] that [toISOString] throws on an Invalid Date. *)
Definition RangeError_invalid_time : Err := mkErr (val "Invalid time value").

(** [updateTicket] (lines 186-282) for whatever [Date] objects the updates
    hold. A [toISOString] that throws does so inside the [try], before the
    gateway is called, and the [catch] of lines 266-280 logs, toasts and
    rethrows; when every conversion succeeds the call goes on as
    [updateTicket] above describes. *)
Definition updateTicketUnchecked (sess : Session) (db : DbHelpers)
  (ns : NotificationSystem) (now : Date) (ticketId : string)
  (p : UncheckedUpdates) : M Ticket :=
  match user sess with
  | None => throw (Error "User not authenticated")
  | Some _ =>
      match checkDates p with
      | Some updates => updateTicket sess db ns now ticketId updates
      | None =>
          try_catch
            (throw RangeError_invalid_time)
            (fun e =>
               console "log" "" ;;
               toast "Failed to update ticket"
                     (or_else (message e)
                              "An error occurred while updating the ticket.")
                     true ;;
               throw e)
      end
  end.

(** The two whole-number ticket figures that [loadSystemData] of the admin
    dashboard puts into [systemStats] (src/unnamed/part_000, lines 103 and
    117-119). [loadSystemData] runs from the effect on [user], so it reads
    the collection [captured] by the render that ran that effect, not the
    collection of the render that shows the figures. *)
Definition total_tickets (captured : list Ticket) : nat := length captured.

Definition resolved_tickets (captured : list Ticket) : nat :=
  length (filter (fun t => includes doneStatuses (status t)) captured).

(* ------------------------------------------------------------------ *)
(** *** Sample data for the clocks *)

(** The record of [t1] after an update that the gateway stamped with its
    own clock, 2024-06-01, and a gateway whose table holds it. *)
Definition inProgressRow : RawTicket :=
  applyFields jun01 (rawTicket "t1" "eng-2")
    (dbUpdatesOf "eng-1" mar01 (statusUpdates "in_progress")).

Definition sampleDbInProgress : DbHelpers :=
  tableDb [inProgressRow; rawTicket "t2" "eng-2"] "t9" jun01.

(** The store after that update: [t1] carries the gateway's [updatedAt]. *)
Definition inProgressStore : Store :=
  mkStore [transformTicket inProgressRow;
           transformTicket (rawTicket "t2" "eng-2")]
          false null [].

(** Updates that resolve a ticket and carry an Invalid Date as due date. *)
Definition resolveWithInvalidDue : UncheckedUpdates :=
  mkUnchecked None None None None None (Some "resolved") None None None None
              None None None None (Some (val InvalidDate)).

(* ================================================================== *)
(** * Properties *)

(** ** JavaScript values *)

Lemma strict_eq_spec (a b : js string) : strict_eq a b = true <-> a = b.
Proof.
  destruct a, b; simpl; split; intro H; try reflexivity; try discriminate.
  - apply String.eqb_eq in H. now subst.
  - inversion H. apply String.eqb_refl.
Qed.

Lemma strict_eq_false (a b : js string) : a <> b -> strict_eq a b = false.
Proof.
  intro H. destruct (strict_eq a b) eqn:E; [|reflexivity].
  apply strict_eq_spec in E. contradiction.
Qed.

Lemma includes_In (arr : list string) (s : string) :
  includes arr s = true <-> In s arr.
Proof.
  unfold includes. rewrite existsb_exists. split.
  - intros [x [Hin Heq]]. apply String.eqb_eq in Heq. now subst.
  - intro Hin. exists s. split; [assumption | apply String.eqb_refl].
Qed.

(** Running an [async] body: unfold the plumbing of [M]. *)
Ltac run :=
  unfold bind, try_catch, finally, await, ret, throw, toast, console, emit,
    setTickets, setLoading, setError, modify, setLoadingIn; simpl.

(** ** loadTickets *)

(** What [loadTickets] does when the fetch is rejected, in full: the
    collection stays, the error cell takes the message of the [TypeError]
    raised by [data.map], a toast is shown, and the promise is fulfilled. *)
Lemma loadTickets_rejected_run sess db u p e st :
  user sess = Some u ->
  profile sess = Some p ->
  db_getTicketsWithRelations db (user_id u) (role p) = Rejected e ->
  loadTickets sess db st =
  (Fulfilled tt,
   mkStore (tickets st) false (message (TypeError_undefined "map"))
     ((((effects st ++ [DbGetTickets (user_id u) (role p)])
          ++ [Console "log" ""])
         ++ [Console "error" "Error loading tickets:"])
        ++ [Toast "Error loading tickets"
                  (or_else (message (TypeError_undefined "map"))
                           "Failed to load tickets") true])).
Proof.
  intros Hu Hp Hdb. unfold loadTickets. rewrite Hu, Hp. run.
  rewrite Hdb. reflexivity.
Qed.

(** C4. Whenever the gateway fetch of [loadTickets] fails, the call is
    fulfilled (it does not reject), the local collection is what it was
    before the call, the error state holds a message (it is not [null] nor
    [undefined]), loading is over, and a failure toast has been raised. *)
Theorem loadTickets_failure_is_local sess db u p e st :
  user sess = Some u ->
  profile sess = Some p ->
  db_getTicketsWithRelations db (user_id u) (role p) = Rejected e ->
  let (r, st') := loadTickets sess db st in
  r = Fulfilled tt
  /\ tickets st' = tickets st
  /\ (exists msg, error st' = val msg /\ msg <> "")
  /\ loading st' = false
  /\ (exists d, In (Toast "Error loading tickets" d true) (effects st')).
Proof.
  intros Hu Hp Hdb.
  rewrite (loadTickets_rejected_run sess db u p e st Hu Hp Hdb).
  repeat split.
  - eexists. split; [reflexivity | discriminate].
  - eexists. apply in_or_app. right. left. reflexivity.
Qed.

Lemma loadTickets_failure_is_local_witness :
  let (r, st') := loadTickets engineerSession (failingDb networkError)
                    loadedStore in
  r = Fulfilled tt
  /\ tickets st' = tickets loadedStore
  /\ (exists msg, error st' = val msg /\ msg <> "")
  /\ loading st' = false
  /\ (exists d, In (Toast "Error loading tickets" d true) (effects st')).
Proof.
  apply (loadTickets_failure_is_local engineerSession (failingDb networkError)
           (mkUser "eng-1") (mkProfile "field_engineer") networkError
           loadedStore); reflexivity.
Defined.

(** ** deleteTicket *)

(** For a signed-in user [deleteTicket] takes the same path whatever the
    gateway answers: the inner [catch] absorbs a rejection and a returned
    [error] alike, the ticket leaves the collection, the success toast is
    shown and the promise is fulfilled. *)
Lemma deleteTicket_ignores_gateway sess db u ticketId st :
  user sess = Some u ->
  let (r, st') := deleteTicket sess db ticketId st in
  r = Fulfilled tt
  /\ tickets st' = filter (fun t => negb (id t =? ticketId)%string) (tickets st)
  /\ In (Toast "Ticket deleted" "The ticket has been deleted successfully."
               false) (effects st').
Proof.
  intro Hu. unfold deleteTicket. rewrite Hu. run.
  destruct (db_deleteTicket db ticketId) as [r | e]; simpl.
  - destruct (error_ r); simpl; repeat split;
      apply in_or_app; right; left; reflexivity.
  - repeat split; apply in_or_app; right; left; reflexivity.
Qed.

(** C1. With the gateway out of reach, [deleteTicket "t1"] on a store holding
    [t1] and [t2] is fulfilled, leaves only [t2] in the collection and shows
    the success toast: the gateway error is logged and goes no further. The
    specification wants the collection untouched and the error thrown, and
    so does the outer [catch] of the function, which no gateway error can
    reach. *)
Theorem deleteTicket_removes_on_gateway_failure :
  deleteTicket engineerSession (failingDb networkError) "t1" loadedStore =
  (Fulfilled tt,
   mkStore [transformTicket (rawTicket "t2" "eng-2")] false null
     [DbDeleteTicket "t1"; Console "log" "";
      Toast "Ticket deleted" "The ticket has been deleted successfully."
            false]).
Proof. reflexivity. Qed.

(** ** createTicket *)

Lemma app3 {A : Type} (l : list A) (a b c : A) :
  ((l ++ [a]) ++ [b]) ++ [c] = l ++ [a; b; c].
Proof. now rewrite <- !app_assoc. Qed.

(** C3. Whenever the gateway's [createTicket] fails, by rejecting or by
    returning an error, [createTicket] rejects with that very error and the
    local collection is the one from before the call, so its length and
    contents are unchanged and no new record is in it; all the call leaves
    behind is the gateway call, a console entry and the failure toast. *)
Theorem createTicket_failure_keeps_collection sess db ns u ticketData e st :
  user sess = Some u ->
  createFails db (user_id u) ticketData e ->
  let (r, st') := createTicket sess db ns ticketData st in
  r = Rejected e
  /\ tickets st' = tickets st
  /\ length (tickets st') = length (tickets st)
  /\ effects st' =
     effects st ++
       [DbCreateTicket (user_id u) ticketData;
        Console "error" "Error creating ticket:";
        Toast "Failed to create ticket"
              (or_else (message e)
                       "An error occurred while creating the ticket.") true].
Proof.
  intros Hu Hfail. unfold createTicket. rewrite Hu. run.
  destruct Hfail as [Hrej | [r [Hres Herr]]].
  - rewrite Hrej. simpl. rewrite app3. repeat split.
  - rewrite Hres. simpl. rewrite Herr. simpl. rewrite app3. repeat split.
Qed.

Lemma createTicket_failure_keeps_collection_witness :
  let (r, st') := createTicket engineerSession (refusingDb networkError)
                    quietNotifications noUpdates loadedStore in
  r = Rejected networkError
  /\ tickets st' = tickets loadedStore
  /\ length (tickets st') = length (tickets loadedStore)
  /\ effects st' =
     effects loadedStore ++
       [DbCreateTicket "eng-1" noUpdates;
        Console "error" "Error creating ticket:";
        Toast "Failed to create ticket" "Network request failed" true].
Proof.
  apply (createTicket_failure_keeps_collection engineerSession
           (refusingDb networkError) quietNotifications (mkUser "eng-1")
           noUpdates networkError loadedStore).
  - reflexivity.
  - right. eexists. split; reflexivity.
Defined.

(** Whatever the notification system does, the notifications of a creation
    end normally and touch no state cell. *)
Lemma notifyCreated_harmless ns t st :
  exists fx,
    try_catch
      (emit (NotifyCreated t) ;; await (notifyTicketCreated ns t))
      (fun _ => console "warn" "Failed to send ticket creation notifications:")
      st
    = (Fulfilled tt, mkStore (tickets st) (loading st) (error st) fx).
Proof.
  run. destruct (notifyTicketCreated ns t) as [[] | e]; eexists; reflexivity.
Qed.

(** What [createTicket] does once the gateway has answered with a record:
    it is fulfilled with the transformed record, which now heads the
    collection, and the success toast closes the effects. *)
Lemma createTicket_success_run sess db ns u ticketData d st :
  user sess = Some u ->
  createSucceeds db (user_id u) ticketData d ->
  exists fx,
    createTicket sess db ns ticketData st =
    (Fulfilled (transformCreated d),
     mkStore (transformCreated d :: tickets st) (loading st) (error st)
       (fx ++ [Toast "Ticket created"
                     "Your ticket has been created successfully." false])).
Proof.
  intros Hu Hok. unfold createTicket. rewrite Hu. run.
  rewrite Hok. simpl.
  destruct (notifyTicketCreated ns (transformCreated d)) as [[] | e]; simpl;
    eexists; reflexivity.
Qed.

(** ** updateTicket *)

Lemma replaceById_length ticketId t' prev :
  length (replaceById ticketId t' prev) = length prev.
Proof. unfold replaceById. apply length_map. Qed.

Lemma replaceById_other ticketId t' prev i t :
  nth_error prev i = Some t ->
  id t <> ticketId ->
  nth_error (replaceById ticketId t' prev) i = Some t.
Proof.
  intros Hnth Hid. unfold replaceById. rewrite nth_error_map, Hnth. simpl.
  apply String.eqb_neq in Hid. now rewrite Hid.
Qed.

Lemma replaceById_absent ticketId t' prev :
  (forall t, In t prev -> id t <> ticketId) ->
  replaceById ticketId t' prev = prev.
Proof.
  unfold replaceById. induction prev as [| x prev IH]; intro Habs; simpl.
  - reflexivity.
  - assert (Hx : (id x =? ticketId)%string = false)
      by (apply String.eqb_neq, Habs; now left).
    rewrite Hx. f_equal. apply IH. intros t Ht. apply Habs. now right.
Qed.

(** Whatever the notification system does, the notifications of an update
    end normally and touch no state cell. *)
Lemma notifyUpdate_harmless ns uid updates t st :
  exists fx,
    notifyUpdate ns uid updates t st
    = (Fulfilled tt, mkStore (tickets st) (loading st) (error st) fx).
Proof.
  destruct st as [ts ld er fx0]. unfold notifyUpdate. run.
  destruct (status_is updates "resolved"); simpl.
  - destruct (notifyTicketResolved ns t uid) as [[] | e]; simpl;
      [| eexists; reflexivity].
    destruct (get (u_assignedTo updates)) as [| | a]; simpl;
      try (eexists; reflexivity).
    destruct (negb (a =? "")%string && negb (a =? createdBy t)%string); simpl;
      [| eexists; reflexivity].
    destruct (notifyTicketAssigned ns t a uid) as [[] | e]; simpl;
      eexists; reflexivity.
  - destruct (get (u_assignedTo updates)) as [| | a]; simpl;
      try (eexists; reflexivity).
    destruct (negb (a =? "")%string && negb (a =? createdBy t)%string); simpl;
      [| eexists; reflexivity].
    destruct (notifyTicketAssigned ns t a uid) as [[] | e]; simpl;
      eexists; reflexivity.
Qed.

(** What [updateTicket] does once the gateway has answered with a record:
    the fields [dbUpdatesOf] were sent, the promise is fulfilled with the
    transformed record, that record stands where the tickets with the id
    stood, and the success toast closes the effects. *)
Lemma updateTicket_success_run sess db ns u now ticketId updates d st :
  user sess = Some u ->
  updateSucceeds db ticketId (dbUpdatesOf (user_id u) now updates) d ->
  exists fx,
    updateTicket sess db ns now ticketId updates st =
    (Fulfilled (transformTicket d),
     mkStore (replaceById ticketId (transformTicket d) (tickets st))
       (loading st) (error st)
       (fx ++ [Toast "Ticket updated"
                     "The ticket has been updated successfully." false])).
Proof.
  intros Hu Hok. destruct st as [ts ld er fx0].
  unfold updateTicket, notifyUpdate. rewrite Hu. run.
  rewrite Hok. simpl.
  destruct (status_is updates "resolved"); simpl;
    [destruct (notifyTicketResolved ns (transformTicket d) (user_id u))
       as [[] | e]; simpl; [| eexists; reflexivity] |];
    (destruct (get (u_assignedTo updates)) as [| | a]; simpl;
     try (eexists; reflexivity);
     destruct (negb (a =? "")%string
               && negb (a =? raw_createdBy d)%string); simpl;
     [| eexists; reflexivity];
     destruct (notifyTicketAssigned ns (transformTicket d) a (user_id u))
       as [[] | e]; simpl; eexists; reflexivity).
Qed.


(** C10. When the gateway call of [updateTicket] succeeds, the collection
    keeps its length, every ticket whose id differs from [ticketId] is at the
    index it had, unchanged, and when no local ticket has the id the
    collection is the one from before the call: the updated record is not
    inserted. *)
Theorem updateTicket_frame sess db ns u now ticketId updates d st :
  user sess = Some u ->
  updateSucceeds db ticketId (dbUpdatesOf (user_id u) now updates) d ->
  let (r, st') := updateTicket sess db ns now ticketId updates st in
  r = Fulfilled (transformTicket d)
  /\ length (tickets st') = length (tickets st)
  /\ (forall i t, nth_error (tickets st) i = Some t ->
                  id t <> ticketId ->
                  nth_error (tickets st') i = Some t)
  /\ ((forall t, In t (tickets st) -> id t <> ticketId) ->
      tickets st' = tickets st).
Proof.
  intros Hu Hok.
  destruct (updateTicket_success_run sess db ns u now ticketId updates d st
              Hu Hok) as [fx Hrun].
  rewrite Hrun. simpl. repeat split.
  - apply replaceById_length.
  - intros i t. apply replaceById_other.
  - apply replaceById_absent.
Qed.


(** With notifications that reject, resolving [t1] still goes through; the
    rejection shows only as a console warning between the notification and
    the success toast. *)
Example resolve_with_broken_notifications :
  let d := applyFields jun01 (rawTicket "t1" "eng-2")
             (dbUpdatesOf "eng-1" mar01 (statusUpdates "resolved")) in
  updateTicket engineerSession sampleDb (brokenNotifications networkError)
    mar01 "t1" (statusUpdates "resolved") loadedStore =
  (Fulfilled (transformTicket d),
   mkStore [transformTicket d; transformTicket (rawTicket "t2" "eng-2")]
     false null
     [DbUpdateTicket "t1" (dbUpdatesOf "eng-1" mar01 (statusUpdates "resolved"));
      NotifyResolved (transformTicket d) "eng-1";
      Console "warn" "Failed to send ticket update notifications:";
      Toast "Ticket updated" "The ticket has been updated successfully." false]).
Proof. reflexivity. Qed.

Lemma updateTicket_frame_witness :
  let d := applyFields jun01 (rawTicket "t3" "eng-2")
             (dbUpdatesOf "eng-1" mar01 (statusUpdates "in_progress")) in
  let (r, st') := updateTicket engineerSession sampleDb quietNotifications
                    mar01 "t3" (statusUpdates "in_progress") loadedStore in
  r = Fulfilled (transformTicket d)
  /\ length (tickets st') = length (tickets loadedStore)
  /\ (forall i t, nth_error (tickets loadedStore) i = Some t ->
                  id t <> "t3" ->
                  nth_error (tickets st') i = Some t)
  /\ ((forall t, In t (tickets loadedStore) -> id t <> "t3") ->
      tickets st' = tickets loadedStore).
Proof.
  apply (updateTicket_frame engineerSession sampleDb quietNotifications
           (mkUser "eng-1") mar01 "t3" (statusUpdates "in_progress")); reflexivity.
Defined.

(** The updated record of a ticket that is not in the local collection is
    returned to the caller and not inserted. *)
Example update_of_unloaded_ticket_not_inserted :
  tickets (snd (updateTicket engineerSession sampleDb quietNotifications
                  mar01 "t3" (statusUpdates "in_progress") loadedStore))
  = tickets loadedStore.
Proof. reflexivity. Qed.

(** ** The fields sent by updateTicket *)

Lemma status_is_eq updates s :
  u_status updates = Some s -> status_is updates s = true.
Proof. unfold status_is. intros ->. apply String.eqb_refl. Qed.

(** The first thing a signed-in [updateTicket] does, whatever follows, is to
    call the gateway with the fields of [dbUpdatesOf]; it makes no other
    update call. *)
Lemma updateTicket_sends sess db ns u now ticketId updates st :
  user sess = Some u ->
  exists rest,
    effects (snd (updateTicket sess db ns now ticketId updates st)) =
    effects st
      ++ DbUpdateTicket ticketId (dbUpdatesOf (user_id u) now updates) :: rest
    /\ forall i f', ~ In (DbUpdateTicket i f') rest.
Proof.
  intro Hu. destruct st as [ts ld er fx0].
  unfold updateTicket, notifyUpdate. rewrite Hu. run.
  destruct (db_updateTicket db ticketId _) as [r | e]; simpl.
  2: { eexists. split; [rewrite <- !app_assoc; reflexivity |].
       intros i f' Hin. simpl in Hin. intuition discriminate. }
  destruct (error_ r); simpl.
  { eexists. split; [rewrite <- !app_assoc; reflexivity |].
    intros i f' Hin. simpl in Hin. intuition discriminate. }
  destruct (data r) as [d |]; simpl.
  2: { eexists. split; [rewrite <- !app_assoc; reflexivity |].
       intros i f' Hin. simpl in Hin. intuition discriminate. }
  destruct (status_is updates "resolved"); simpl;
    [destruct (notifyTicketResolved ns (transformTicket d) (user_id u))
       as [[] | e]; simpl |];
    try (destruct (get (u_assignedTo updates)) as [| | a]; simpl;
         [| | destruct (negb (a =? "")%string
                        && negb (a =? raw_createdBy d)%string); simpl;
              [destruct (notifyTicketAssigned ns (transformTicket d) a
                           (user_id u)) as [[] | e]; simpl |]]);
    (eexists; split; [rewrite <- !app_assoc; reflexivity |];
     intros i f' Hin; simpl in Hin; intuition discriminate).
Qed.

Lemma dbUpdatesOf_assigned uid now updates :
  u_status updates = Some "assigned" ->
  truthy (get (u_assignedAt updates)) = false ->
  db_assignedAt (dbUpdatesOf uid now updates) = Some (val (toISOString now)).
Proof.
  intros Hs Hd. unfold dbUpdatesOf. cbn [db_assignedAt].
  now rewrite (status_is_eq _ _ Hs), Hd.
Qed.

Lemma dbUpdatesOf_resolved uid now updates :
  u_status updates = Some "resolved" ->
  truthy (get (u_resolvedAt updates)) = false ->
  db_resolvedAt (dbUpdatesOf uid now updates) = Some (val (toISOString now)).
Proof.
  intros Hs Hd. unfold dbUpdatesOf. cbn [db_resolvedAt].
  now rewrite (status_is_eq _ _ Hs), Hd.
Qed.

Lemma dbUpdatesOf_verified uid now updates :
  u_status updates = Some "verified" ->
  truthy (get (u_verifiedAt updates)) = false ->
  db_verifiedAt (dbUpdatesOf uid now updates) = Some (val (toISOString now))
  /\ db_verifiedBy (dbUpdatesOf uid now updates) = Some (val uid).
Proof.
  intros Hs Hd. unfold dbUpdatesOf. cbn [db_verifiedAt db_verifiedBy].
  now rewrite (status_is_eq _ _ Hs), Hd.
Qed.

(** [dbUpdatesOf] sends the status it was given. *)
Lemma dbUpdatesOf_status uid now updates :
  db_status (dbUpdatesOf uid now updates) = u_status updates.
Proof. reflexivity. Qed.

(** The record [applyFields] answers with meets the contract [reflects]. *)
Lemma applyFields_reflects serverNow r f : reflects f (applyFields serverNow r f).
Proof.
  unfold reflects, applyFields; simpl.
  repeat split; intros v Hv; rewrite Hv; reflexivity.
Qed.

(** What [checkDates] lets through is the caller's updates, key by key:
    the status and the truthiness of each timestamp are the caller's. *)
Lemma checkDates_keeps p updates :
  checkDates p = Some updates ->
  u_status updates = c_status p
  /\ truthy (get (u_assignedAt updates)) = truthy (get (c_assignedAt p))
  /\ truthy (get (u_resolvedAt updates)) = truthy (get (c_resolvedAt p))
  /\ truthy (get (u_verifiedAt updates)) = truthy (get (c_verifiedAt p)).
Proof.
  unfold checkDates.
  destruct (c_dueDate p) as [[| | [t1 |]] |];
    destruct (c_assignedAt p) as [[| | [t2 |]] |];
    destruct (c_resolvedAt p) as [[| | [t3 |]] |];
    destruct (c_verifiedAt p) as [[| | [t4 |]] |];
    cbn [checkedKey]; intro H; try discriminate;
    inversion H; subst; repeat split.
Qed.

Lemma checkDates_unchecked u : checkDates (unchecked u) = Some u.
Proof.
  destruct u as [i ti de lo pr st cb at_ ca ua aa ra va vb dd].
  unfold checkDates, unchecked.
  cbn [c_dueDate c_assignedAt c_resolvedAt c_verifiedAt c_id c_title
       c_description c_location c_priority c_status c_createdBy c_assignedTo
       c_createdAt c_updatedAt c_verifiedBy u_id u_title u_description
       u_location u_priority u_status u_createdBy u_assignedTo u_createdAt
       u_updatedAt u_assignedAt u_resolvedAt u_verifiedAt u_verifiedBy
       u_dueDate].
  destruct dd as [[| | t1] |], aa as [[| | t2] |], ra as [[| | t3] |],
           va as [[| | t4] |]; reflexivity.
Qed.

(** C5, amended. A call of [updateTicket] by a signed-in user goes one of
    two ways. If a [Date] supplied under [dueDate], [assignedAt],
    [resolvedAt] or [verifiedAt] is invalid, [toISOString] throws and the
    call rejects with the failure toast, nothing being sent. Otherwise the
    gateway is called once, with fields [f] such that: with status
    [resolved] and no [resolvedAt] supplied, [f.resolvedAt] is the caller's
    clock reading in wire form; with status [assigned] and no [assignedAt],
    [f.assignedAt] is; with status [verified] and no [verifiedAt],
    [f.verifiedAt] is and [f.verifiedBy] is the acting user's id. When the
    gateway answers the resolving update with a record that holds the fields
    it was sent, the ticket returned has [resolvedAt] set, to the caller's
    clock reading. How that reading compares with the [updatedAt] the
    record had is not in the code's hands. *)
Theorem updateTicket_stamps sess db ns u now ticketId p st :
  user sess = Some u ->
  let run := updateTicketUnchecked sess db ns now ticketId p st in
  (checkDates p = None ->
   run = (Rejected RangeError_invalid_time,
          mkStore (tickets st) (loading st) (error st)
            (effects st ++
             [Console "log" "";
              Toast "Failed to update ticket" "Invalid time value" true])))
  /\ (forall updates,
         checkDates p = Some updates ->
         let f := dbUpdatesOf (user_id u) now updates in
         (exists rest,
             effects (snd run) = effects st ++ DbUpdateTicket ticketId f :: rest
             /\ forall i f', ~ In (DbUpdateTicket i f') rest)
         /\ (c_status p = Some "resolved" ->
             truthy (get (c_resolvedAt p)) = false ->
             db_resolvedAt f = Some (val (toISOString now))
             /\ forall d, updateSucceeds db ticketId f d -> reflects f d ->
                  exists t, fst run = Fulfilled t /\ resolvedAt t = val now)
         /\ (c_status p = Some "assigned" ->
             truthy (get (c_assignedAt p)) = false ->
             db_assignedAt f = Some (val (toISOString now)))
         /\ (c_status p = Some "verified" ->
             truthy (get (c_verifiedAt p)) = false ->
             db_verifiedAt f = Some (val (toISOString now))
             /\ db_verifiedBy f = Some (val (user_id u)))).
Proof.
  intros Hu run. unfold run, updateTicketUnchecked. rewrite Hu. split.
  - intros ->. destruct st as [ts ld er fx0]. run.
    now rewrite <- app_assoc.
  - intros updates Hsome. cbv zeta.
    set (f := dbUpdatesOf (user_id u) now updates). rewrite Hsome.
    destruct (checkDates_keeps p updates Hsome) as (Hst & Hasg & Hres & Hver).
    rewrite <- Hst, <- Hasg, <- Hres, <- Hver.
    split; [| split; [| split]].
    + apply updateTicket_sends; assumption.
    + intros Hs Hd.
      pose proof (dbUpdatesOf_resolved (user_id u) now updates Hs Hd) as Hf.
      split; [exact Hf |].
      intros d Hok Hrefl.
      destruct (updateTicket_success_run sess db ns u now ticketId updates d st
                  Hu Hok) as [fx Hrun].
      rewrite Hrun. cbn [fst]. exists (transformTicket d).
      split; [reflexivity |].
      destruct Hrefl as (_ & _ & _ & _ & _ & _ & _ & Hraw & _).
      unfold transformTicket; cbn [resolvedAt].
      rewrite (Hraw _ Hf). reflexivity.
    + apply dbUpdatesOf_assigned.
    + apply dbUpdatesOf_verified.
Qed.

Lemma updateTicket_stamps_witness :
  updateTicketUnchecked engineerSession sampleDb quietNotifications mar01 "t1"
    resolveWithInvalidDue loadedStore
  = (Rejected RangeError_invalid_time,
     mkStore (tickets loadedStore) false null
       [Console "log" "";
        Toast "Failed to update ticket" "Invalid time value" true])
  /\ (db_resolvedAt (dbUpdatesOf "eng-1" mar01 (statusUpdates "resolved"))
      = Some (val (toISOString mar01))
      /\ exists t,
          fst (updateTicketUnchecked engineerSession sampleDb
                 quietNotifications mar01 "t1"
                 (unchecked (statusUpdates "resolved")) loadedStore)
          = Fulfilled t
          /\ resolvedAt t = val mar01)
  /\ db_assignedAt (dbUpdatesOf "eng-1" mar01 (statusUpdates "assigned"))
     = Some (val (toISOString mar01))
  /\ (db_verifiedAt (dbUpdatesOf "eng-1" mar01 (statusUpdates "verified"))
      = Some (val (toISOString mar01))
      /\ db_verifiedBy (dbUpdatesOf "eng-1" mar01 (statusUpdates "verified"))
         = Some (val "eng-1")).
Proof.
  pose proof (updateTicket_stamps engineerSession sampleDb quietNotifications
                (mkUser "eng-1") mar01 "t1" resolveWithInvalidDue loadedStore
                eq_refl) as [Hinvalid _].
  pose proof (updateTicket_stamps engineerSession sampleDb quietNotifications
                (mkUser "eng-1") mar01 "t1"
                (unchecked (statusUpdates "resolved")) loadedStore eq_refl)
    as [_ Hres].
  pose proof (updateTicket_stamps engineerSession sampleDb quietNotifications
                (mkUser "eng-1") mar01 "t1"
                (unchecked (statusUpdates "assigned")) loadedStore eq_refl)
    as [_ Hasg].
  pose proof (updateTicket_stamps engineerSession sampleDb quietNotifications
                (mkUser "eng-1") mar01 "t1"
                (unchecked (statusUpdates "verified")) loadedStore eq_refl)
    as [_ Hver].
  split; [apply Hinvalid; reflexivity | split; [| split]].
  - destruct (Hres (statusUpdates "resolved") eq_refl) as (_ & Hr & _).
    destruct (Hr eq_refl eq_refl) as [Hf Hrec]. split; [exact Hf |].
    apply (Hrec (applyFields jun01 (rawTicket "t1" "eng-2")
                   (dbUpdatesOf "eng-1" mar01 (statusUpdates "resolved")))).
    + reflexivity.
    + apply applyFields_reflects.
  - destruct (Hasg (statusUpdates "assigned") eq_refl) as (_ & _ & Ha & _).
    exact (Ha eq_refl eq_refl).
  - destruct (Hver (statusUpdates "verified") eq_refl) as (_ & _ & _ & Hv).
    exact (Hv eq_refl eq_refl).
Defined.

(** C5 does not hold where it says the stamped [resolvedAt] is at or after
    the prior [updatedAt]. The local record of [t1] carries the [updatedAt]
    the gateway gave it, 2024-06-01 by the gateway's clock; the caller
    resolves it when the caller's clock reads 2024-03-01; the gateway
    answers with the record holding the fields it was sent; the ticket
    returned has [resolvedAt] 2024-03-01, before the prior [updatedAt]. *)
Lemma resolvedAt_before_prior_updatedAt :
  let f := dbUpdatesOf "eng-1" mar01 (statusUpdates "resolved") in
  let d := applyFields jun01 inProgressRow f in
  let prior := transformTicket inProgressRow in
  In prior (tickets inProgressStore)
  /\ id prior = "t1"
  /\ updateSucceeds sampleDbInProgress "t1" f d
  /\ reflects f d
  /\ fst (updateTicketUnchecked engineerSession sampleDbInProgress
            quietNotifications mar01 "t1"
            (unchecked (statusUpdates "resolved")) inProgressStore)
     = Fulfilled (transformTicket d)
  /\ resolvedAt (transformTicket d) = val mar01
  /\ updatedAt prior = jun01
  /\ ~ (updatedAt prior <= mar01).
Proof.
  intros f d prior.
  split; [left; reflexivity |].
  split; [reflexivity |].
  split; [reflexivity |].
  split; [apply applyFields_reflects |].
  split; [reflexivity |].
  split; [reflexivity |].
  split; [reflexivity |].
  intro Hle. vm_compute in Hle. apply Hle. reflexivity.
Qed.

(** ** assignTicket *)

(** The fields [assignTicket] sends for an assignee that is neither [null]
    nor the empty string. *)
Lemma assign_fields uid now a :
  a <> "" ->
  let f := dbUpdatesOf uid now (assignUpdates now (Some a)) in
  db_status f = Some "assigned"
  /\ db_assignedTo f = Some (val a)
  /\ db_assignedAt f = Some (val (toISOString now)).
Proof.
  intro Ha. apply String.eqb_neq in Ha.
  unfold dbUpdatesOf, assignUpdates, status_is, truthy_str; simpl.
  rewrite Ha. simpl. repeat split.
Qed.

(** The fields [assignTicket] sends for [null]: all three keys are present,
    [assignedAt] holding [undefined]. *)
Lemma unassign_fields uid now :
  let f := dbUpdatesOf uid now (assignUpdates now None) in
  db_status f = Some "open"
  /\ db_assignedTo f = Some null
  /\ db_assignedAt f = Some undefined.
Proof. repeat split. Qed.

(** C6, amended. For an assignee id that is neither [null] nor
    empty, an [assignTicket] that the gateway answers with the record holding
    the fields it was sent is fulfilled with a ticket whose status is
    [assigned], whose [assignedTo] is the id and whose [assignedAt] is the
    call time; and an [assignTicket] with [null], answered likewise, is
    fulfilled with a ticket whose status is [open], whose [assignedTo] is
    [null] and whose [assignedAt] is [undefined]. *)
Theorem assignTicket_record sess db ns u now ticketId st :
  user sess = Some u ->
  (forall a d,
      a <> "" ->
      let f := dbUpdatesOf (user_id u) now (assignUpdates now (Some a)) in
      updateSucceeds db ticketId f d ->
      reflects f d ->
      exists t,
        fst (assignTicket sess db ns now ticketId (Some a) st) = Fulfilled t
        /\ status t = "assigned"
        /\ assignedTo t = val a
        /\ assignedAt t = val now)
  /\ (forall d,
         let f := dbUpdatesOf (user_id u) now (assignUpdates now None) in
         updateSucceeds db ticketId f d ->
         reflects f d ->
         exists t,
           fst (assignTicket sess db ns now ticketId None st) = Fulfilled t
           /\ status t = "open"
           /\ assignedTo t = null
           /\ assignedAt t = undefined).
Proof.
  intro Hu. split.
  - intros a d Ha f Hok Hrefl.
    destruct (assign_fields (user_id u) now a Ha) as (Hs & Hto & Hat).
    fold f in Hs, Hto, Hat.
    destruct Hrefl as (_ & _ & _ & _ & Rs & Rto & Rat & _).
    unfold assignTicket.
    destruct (updateTicket_success_run sess db ns u now ticketId
                (assignUpdates now (Some a)) d st Hu Hok) as [fx Hrun].
    rewrite Hrun. cbn [fst]. exists (transformTicket d).
    unfold transformTicket; cbn [status assignedTo assignedAt].
    rewrite (Rs _ Hs), (Rto _ Hto), (Rat _ Hat). repeat split.
  - intros d f Hok Hrefl.
    destruct (unassign_fields (user_id u) now) as (Hs & Hto & Hat).
    fold f in Hs, Hto, Hat.
    destruct Hrefl as (_ & _ & _ & _ & Rs & Rto & Rat & _).
    unfold assignTicket.
    destruct (updateTicket_success_run sess db ns u now ticketId
                (assignUpdates now None) d st Hu Hok) as [fx Hrun].
    rewrite Hrun. cbn [fst]. exists (transformTicket d).
    unfold transformTicket; cbn [status assignedTo assignedAt].
    rewrite (Rs _ Hs), (Rto _ Hto), (Rat _ Hat). repeat split.
Qed.

Lemma assignTicket_record_witness :
  (exists t,
      fst (assignTicket supervisorSession sampleDb quietNotifications mar01
             "t1" (Some "eng-1") loadedStore) = Fulfilled t
      /\ status t = "assigned"
      /\ assignedTo t = val "eng-1"
      /\ assignedAt t = val mar01)
  /\ (exists t,
         fst (assignTicket supervisorSession sampleDbAssigned
                quietNotifications jun01 "t1" None
                (snd (assignTicket supervisorSession sampleDb
                        quietNotifications mar01 "t1" (Some "eng-1")
                        loadedStore))) = Fulfilled t
         /\ status t = "open"
         /\ assignedTo t = null
         /\ assignedAt t = undefined).
Proof.
  split.
  - destruct (assignTicket_record supervisorSession sampleDb
                quietNotifications (mkUser "sup-1") mar01 "t1" loadedStore
                eq_refl) as [Hassign _].
    apply (Hassign "eng-1" assignedRow).
    + discriminate.
    + reflexivity.
    + apply applyFields_reflects.
  - destruct (assignTicket_record supervisorSession sampleDbAssigned
                quietNotifications (mkUser "sup-1") jun01 "t1"
                (snd (assignTicket supervisorSession sampleDb
                        quietNotifications mar01 "t1" (Some "eng-1")
                        loadedStore))
                eq_refl) as [_ Hunassign].
    apply (Hunassign
             (applyFields jun01 assignedRow
                (dbUpdatesOf "sup-1" jun01 (assignUpdates jun01 None)))).
    + reflexivity.
    + apply applyFields_reflects.
Defined.

(** C6 does not hold for the empty assignee id, which is not [null]:
    [assignedTo ? 'assigned' : 'open'] finds it falsy, so the fields sent
    carry status [open] and an [undefined] [assignedAt], and the gateway,
    which answers with the record holding exactly what it was sent, returns
    a ticket that is not [assigned] and has no [assignedAt]. *)
Lemma assignTicket_empty_id_not_assigned :
  let f := dbUpdatesOf "sup-1" mar01 (assignUpdates mar01 (Some "")) in
  let d := applyFields jun01 (rawTicket "t1" "eng-2") f in
  updateSucceeds sampleDb "t1" f d
  /\ reflects f d
  /\ fst (assignTicket supervisorSession sampleDb quietNotifications mar01
            "t1" (Some "") loadedStore) = Fulfilled (transformTicket d)
  /\ status (transformTicket d) = "open"
  /\ status (transformTicket d) <> "assigned"
  /\ assignedAt (transformTicket d) = undefined.
Proof.
  repeat split; try reflexivity; try discriminate;
    intros v Hv; inversion Hv; reflexivity.
Qed.

(** ** Visibility *)

Lemma isOwnTicket_spec sess t :
  isOwnTicket sess t = true <-> Own (user_id_opt sess) t.
Proof.
  unfold isOwnTicket, Own. rewrite orb_true_iff, !strict_eq_spec. tauto.
Qed.

Lemma canViewAllTickets_spec sess :
  canViewAllTickets sess = true <->
  role_opt sess = val "admin" \/ role_opt sess = val "supervisor".
Proof.
  unfold canViewAllTickets. rewrite orb_true_iff, !strict_eq_spec. tauto.
Qed.

(** The visible set of a session that may not view all tickets holds own
    tickets only. *)
Lemma userTickets_own sess tickets_ t :
  canViewAllTickets sess = false ->
  In t (userTickets sess tickets_) <->
  In t tickets_ /\ Own (user_id_opt sess) t.
Proof.
  intro Hno. unfold userTickets. rewrite Hno, filter_In, isOwnTicket_spec.
  tauto.
Qed.

(** C2. For a session whose role is neither admin nor supervisor (a field
    engineer, any other role, or no profile), a ticket that the user neither
    created nor is assigned to is in no filtered list, whatever the search,
    status, priority and assignment filters are; for an admin or supervisor
    the visibility step hands on the whole collection. *)
Theorem filtered_tickets_visibility sess f tickets_ t :
  (role_opt sess <> val "admin" ->
   role_opt sess <> val "supervisor" ->
   val (createdBy t) <> user_id_opt sess ->
   assignedTo t <> user_id_opt sess ->
   ~ In t (getFilteredTickets sess f tickets_))
  /\ (role_opt sess = val "admin" \/ role_opt sess = val "supervisor" ->
      userTickets sess tickets_ = tickets_).
Proof.
  split.
  - intros Hadmin Hsup Hcreated Hassigned Hin.
    unfold getFilteredTickets in Hin. apply filter_In in Hin.
    destruct Hin as [Hvis _].
    assert (Hno : canViewAllTickets sess = false).
    { destruct (canViewAllTickets sess) eqn:E; [| reflexivity].
      apply canViewAllTickets_spec in E. tauto. }
    apply (userTickets_own _ _ _ Hno) in Hvis.
    destruct Hvis as [_ [Hc | Ha]]; contradiction.
  - intro Hrole. apply canViewAllTickets_spec in Hrole.
    unfold userTickets. now rewrite Hrole.
Qed.

Lemma filtered_tickets_visibility_witness :
  ~ In (transformTicket (rawTicket "t1" "eng-2"))
       (getFilteredTickets engineerSession noFilters (tickets loadedStore))
  /\ userTickets supervisorSession (tickets loadedStore) = tickets loadedStore.
Proof.
  split.
  - apply (filtered_tickets_visibility engineerSession noFilters
             (tickets loadedStore) (transformTicket (rawTicket "t1" "eng-2")));
      discriminate.
  - apply (filtered_tickets_visibility supervisorSession noFilters
             (tickets loadedStore) (transformTicket (rawTicket "t1" "eng-2"))).
    right. reflexivity.
Defined.

(** ** Overdue tickets *)

(** The test of [getOverdueTickets] decides the specification's [Overdue]. *)
Lemma isOverdue_spec now t : isOverdue now t = true <-> Overdue now t.
Proof.
  unfold isOverdue, Overdue.
  destruct (dueDate t) as [| | d].
  - split; [discriminate | intros [[d [Hd _]] _]; discriminate].
  - split; [discriminate | intros [[d [Hd _]] _]; discriminate].
  - rewrite andb_true_iff, negb_true_iff, Z.ltb_lt.
    split.
    + intros [Hlt Hinc]. split; [exists d; split; [reflexivity | assumption] |].
      assert (Hnot : ~ In (status t) doneStatuses).
      { intro Hin. apply includes_In in Hin. congruence. }
      unfold doneStatuses in Hnot. simpl in Hnot.
      repeat split; intro Heq; apply Hnot; rewrite Heq; tauto.
    + intros [[d' [Hd Hlt]] (Hr & Hv & Hc)]. inversion Hd; subst d'.
      split; [assumption |].
      destruct (includes doneStatuses (status t)) eqn:E; [| reflexivity].
      apply includes_In in E. unfold doneStatuses in E. simpl in E.
      destruct E as [E | [E | [E | []]]]; symmetry in E; contradiction.
Qed.

(** [Overdue] is decidable, so the overdue tickets of a list can be told
    apart and counted. *)
Lemma Overdue_dec now t : {Overdue now t} + {~ Overdue now t}.
Proof.
  destruct (isOverdue now t) eqn:E.
  - left. now apply isOverdue_spec.
  - right. intro H. apply isOverdue_spec in H. congruence.
Defined.

Lemma isOverdue_decides now t :
  isOverdue now t = if Overdue_dec now t then true else false.
Proof.
  destruct (Overdue_dec now t) as [H | H].
  - now apply isOverdue_spec.
  - destruct (isOverdue now t) eqn:E; [| reflexivity].
    apply isOverdue_spec in E. contradiction.
Qed.

(** The overdue test written out in [getTicketCounts] is the one of
    [getOverdueTickets]. *)
Lemma counts_overdue_test now t :
  truthy (dueDate t)
  && match dueDate t with
     | val d => d <? now
     | _ => false
     end
  && negb (includes doneStatuses (status t))
  = isOverdue now t.
Proof. unfold isOverdue. destruct (dueDate t); reflexivity. Qed.

(** C8. At every evaluation time [now]: the overdue count of
    [getTicketCounts] is the number of tickets of the visibility-scoped set
    that are [Overdue] (due date set, strictly before [now], status none of
    resolved, verified, closed); [getOverdueTickets] returns exactly the
    [Overdue] tickets of the collection; and of three past-due tickets with
    statuses open, resolved and in_progress, the open and the in_progress one
    are overdue, which an admin or supervisor sees as a count of two. *)
Theorem overdue_counts_exactly sess now tickets_ :
  overdue (getTicketCounts sess now tickets_) =
  length (filter (fun t => if Overdue_dec now t then true else false)
                 (userTickets sess tickets_))
  /\ getOverdueTickets now tickets_ =
     filter (fun t => if Overdue_dec now t then true else false) tickets_
  /\ (forall t, In t (getOverdueTickets now tickets_) <->
                In t tickets_ /\ Overdue now t)
  /\ (forall a b c,
         status a = "open" -> status b = "resolved" ->
         status c = "in_progress" ->
         (forall t, In t [a; b; c] -> exists d, dueDate t = val d /\ d < now) ->
         getOverdueTickets now [a; b; c] = [a; c]
         /\ (canViewAllTickets sess = true ->
             overdue (getTicketCounts sess now [a; b; c]) = 2%nat)).
Proof.
  assert (Hcount : forall l,
             overdue (getTicketCounts sess now l) =
             length (getOverdueTickets now (userTickets sess l))).
  { intro l. unfold getTicketCounts, getOverdueTickets. cbn [overdue].
    f_equal. apply filter_ext. intro t. apply counts_overdue_test. }
  assert (Hfilter : forall l,
             getOverdueTickets now l =
             filter (fun t => if Overdue_dec now t then true else false) l).
  { intro l. unfold getOverdueTickets. apply filter_ext. intro t.
    apply isOverdue_decides. }
  split; [| split; [| split]].
  - rewrite Hcount. now rewrite Hfilter.
  - apply Hfilter.
  - intro t. unfold getOverdueTickets. now rewrite filter_In, isOverdue_spec.
  - intros a b c Ha Hb Hc Hdue.
    assert (Hlist : getOverdueTickets now [a; b; c] = [a; c]).
    { assert (Hpast : forall t, In t [a; b; c] ->
                 isOverdue now t = negb (includes doneStatuses (status t))).
      { intros t Ht. destruct (Hdue t Ht) as [d [Hd Hlt]].
        unfold isOverdue. rewrite Hd. apply Z.ltb_lt in Hlt. now rewrite Hlt. }
      unfold getOverdueTickets. simpl.
      rewrite (Hpast a), (Hpast b), (Hpast c) by (simpl; tauto).
      rewrite Ha, Hb, Hc. reflexivity. }
    split; [exact Hlist |].
    intro Hall. rewrite Hcount. unfold userTickets. rewrite Hall.
    now rewrite Hlist.
Qed.

Lemma overdue_counts_exactly_witness :
  let a := ticketDue "a" "open" (val jan01) in
  let b := ticketDue "b" "resolved" (val jan01) in
  let c := ticketDue "c" "in_progress" (val jan01) in
  getOverdueTickets mar01 [a; b; c] = [a; c]
  /\ overdue (getTicketCounts supervisorSession mar01 [a; b; c]) = 2%nat.
Proof.
  intros a b c.
  destruct (overdue_counts_exactly supervisorSession mar01 [a; b; c])
    as (_ & _ & _ & Hthree).
  destruct (Hthree a b c) as [Hlist Hcount]; try reflexivity.
  - intros t [<- | [<- | [<- | []]]]; exists jan01; split; reflexivity.
  - split; [exact Hlist | apply Hcount; reflexivity].
Defined.

(** ** Sorting *)

Section SortWith.

Variable cmp : Ticket -> Ticket -> Z.

(** The comparator is consistent: it orders any two tickets one way or the
    other, and transitively. *)
Hypothesis cmp_total : forall a b, 0 < cmp a b -> cmp b a <= 0.
Hypothesis cmp_trans :
  forall a b c, cmp a b <= 0 -> cmp b c <= 0 -> cmp a c <= 0.

Lemma insertSorted_perm x l : Permutation (x :: l) (insertSorted cmp x l).
Proof.
  induction l as [| y l IH]; simpl.
  - apply Permutation_refl.
  - destruct (cmp x y <=? 0).
    + apply Permutation_refl.
    + eapply perm_trans; [apply perm_swap |]. now apply perm_skip.
Qed.

Lemma insertSorted_Forall (P : Ticket -> Prop) x l :
  P x -> Forall P l -> Forall P (insertSorted cmp x l).
Proof.
  intros Hx Hl. induction Hl as [| y l Hy Hl IH]; simpl.
  - now constructor.
  - destruct (cmp x y <=? 0); repeat constructor; assumption.
Qed.

Lemma insertSorted_sorted x l :
  StronglySorted (fun a b => cmp a b <= 0) l ->
  StronglySorted (fun a b => cmp a b <= 0) (insertSorted cmp x l).
Proof.
  induction 1 as [| y l Hsorted IH Hall]; simpl.
  - repeat constructor.
  - destruct (cmp x y <=? 0) eqn:E.
    + apply Z.leb_le in E. constructor.
      * now constructor.
      * constructor; [assumption |].
        eapply Forall_impl; [| exact Hall].
        intros z Hz. now apply cmp_trans with y.
    + apply Z.leb_gt in E. constructor; [assumption |].
      apply insertSorted_Forall; [| assumption].
      apply cmp_total. lia.
Qed.

Lemma sortWith_perm l : Permutation l (sortWith cmp l).
Proof.
  induction l as [| x l IH]; simpl.
  - constructor.
  - eapply perm_trans; [apply perm_skip, IH | apply insertSorted_perm].
Qed.

Lemma sortWith_sorted l :
  StronglySorted (fun a b => cmp a b <= 0) (sortWith cmp l).
Proof.
  induction l as [| x l IH]; simpl.
  - constructor.
  - now apply insertSorted_sorted.
Qed.

(** The sort is stable: tickets of a class [p] whose members the comparator
    never puts after one another keep the order they had. *)
Lemma insertSorted_filter (p : Ticket -> bool) x l :
  (forall a b, p a = true -> p b = true -> cmp a b <= 0) ->
  filter p (insertSorted cmp x l) = filter p (x :: l).
Proof.
  intro Hclass. induction l as [| y l IH]; [reflexivity |].
  cbn [insertSorted]. destruct (cmp x y <=? 0) eqn:E; [reflexivity |].
  apply Z.leb_gt in E. cbn [filter] in *. rewrite IH.
  destruct (p x) eqn:Hx, (p y) eqn:Hy; try reflexivity.
  specialize (Hclass x y Hx Hy). lia.
Qed.

Lemma sortWith_stable (p : Ticket -> bool) l :
  (forall a b, p a = true -> p b = true -> cmp a b <= 0) ->
  filter p (sortWith cmp l) = filter p l.
Proof.
  intro Hclass. induction l as [| x l IH]; [reflexivity |].
  cbn [sortWith fold_right]. fold (sortWith cmp l).
  rewrite insertSorted_filter by assumption.
  cbn [filter]. now rewrite IH.
Qed.

End SortWith.

(** In a strongly sorted list an earlier element is related to every later
    one. *)
Lemma StronglySorted_nth {A : Type} (R : A -> A -> Prop) (l : list A) :
  StronglySorted R l ->
  forall i j a b,
    (i < j)%nat -> nth_error l i = Some a -> nth_error l j = Some b -> R a b.
Proof.
  induction 1 as [| x l Hsorted IH Hall]; intros i j a b Hij Hi Hj.
  - destruct i; discriminate.
  - destruct j as [| j]; [lia |]. simpl in Hj.
    destruct i as [| i]; simpl in Hi.
    + inversion Hi; subst x. rewrite Forall_forall in Hall.
      apply Hall. eapply nth_error_In; eassumption.
    + apply (IH i j); [lia | assumption | assumption].
Qed.

(** The comparators of the keys other than priority never return [NaN] and
    are consistent. *)
Lemma compareTickets_total sortBy a b :
  sortBy <> by_priority ->
  0 < sortOrder (compareTickets sortBy a b) ->
  sortOrder (compareTickets sortBy b a) <= 0.
Proof.
  destruct sortBy; intro Hkey; try contradiction; simpl; try lia.
  destruct (dueDate a), (dueDate b); simpl; lia.
Qed.

Lemma compareTickets_trans sortBy a b c :
  sortBy <> by_priority ->
  sortOrder (compareTickets sortBy a b) <= 0 ->
  sortOrder (compareTickets sortBy b c) <= 0 ->
  sortOrder (compareTickets sortBy a c) <= 0.
Proof.
  destruct sortBy; intro Hkey; try contradiction; simpl; try lia.
  destruct (dueDate a), (dueDate b), (dueDate c); simpl; lia.
Qed.

(** The due-date comparator puts [a] no later than [b] exactly when the
    specification's order does. *)
Lemma due_date_order a b :
  sortOrder (compareTickets due_date a b) <= 0 <-> dueOrdered a b.
Proof.
  unfold dueOrdered; simpl. destruct (dueDate a), (dueDate b); simpl; lia.
Qed.

(** For a sort key other than priority, the sorted list is a rearrangement
    of the filtered list in which no ticket compares greater than a later
    one. *)
Lemma sortedTickets_sorted sortBy l :
  sortBy <> by_priority ->
  Permutation l (sortedTickets sortBy l)
  /\ StronglySorted (fun a b => sortOrder (compareTickets sortBy a b) <= 0)
       (sortedTickets sortBy l).
Proof.
  intro Hkey. split.
  - apply sortWith_perm.
  - apply (sortWith_sorted
             (fun a b => sortOrder (compareTickets sortBy a b))).
    + intros a b. now apply compareTickets_total.
    + intros a b c. now apply compareTickets_trans.
Qed.

(** Sorting by due date keeps the tickets without a due date in the order
    the filtered list had them. *)
Lemma sort_by_due_date_stable l :
  filter (fun t => negb (truthy (dueDate t))) (sortedTickets due_date l)
  = filter (fun t => negb (truthy (dueDate t))) l.
Proof.
  apply (sortWith_stable
           (fun a b => sortOrder (compareTickets due_date a b))).
  intros a b Ha Hb. simpl.
  destruct (dueDate a), (dueDate b); simpl in *; try discriminate; lia.
Qed.

Lemma StronglySorted_impl {A : Type} (R S : A -> A -> Prop) (l : list A) :
  (forall a b, R a b -> S a b) -> StronglySorted R l -> StronglySorted S l.
Proof.
  intros HRS. induction 1 as [| x l Hsorted IH Hall]; constructor.
  - assumption.
  - eapply Forall_impl; [| exact Hall]. intros b. apply HRS.
Qed.

(** C7. Sorting by due date rearranges the filtered list so that every
    ticket without a due date stands after every ticket with one, and the
    tickets with a due date stand in ascending order of it; three tickets due
    2024-03-01, never, and 2024-01-01 come out as 2024-01-01, 2024-03-01,
    never. *)
Theorem sort_by_due_date l :
  let s := sortedTickets due_date l in
  Permutation l s
  /\ StronglySorted dueOrdered s
  /\ (forall i j a b,
         nth_error s i = Some a -> nth_error s j = Some b ->
         truthy (dueDate a) = false -> truthy (dueDate b) = true ->
         (j < i)%nat)
  /\ (forall i j a b da db_,
         (i < j)%nat ->
         nth_error s i = Some a -> nth_error s j = Some b ->
         dueDate a = val da -> dueDate b = val db_ ->
         da <= db_)
  /\ (forall x y z,
         dueDate x = val mar01 -> truthy (dueDate y) = false ->
         dueDate z = val jan01 ->
         sortedTickets due_date [x; y; z] = [z; x; y]).
Proof.
  intro s.
  destruct (sortedTickets_sorted due_date l) as [Hperm Hsorted];
    [discriminate |].
  fold s in Hperm, Hsorted.
  assert (Hdue : StronglySorted dueOrdered s).
  { eapply StronglySorted_impl; [| exact Hsorted].
    intros a b. apply due_date_order. }
  split; [exact Hperm |]. split; [exact Hdue |]. split; [| split].
  - intros i j a b Hi Hj Ha Hb.
    destruct (Nat.lt_trichotomy i j) as [Hlt | [Heq | Hgt]];
      [| | exact Hgt].
    + pose proof (StronglySorted_nth _ _ Hdue i j a b Hlt Hi Hj) as Hord.
      unfold dueOrdered in Hord.
      destruct (dueDate a), (dueDate b); simpl in *;
        try discriminate; contradiction.
    + subst j. rewrite Hi in Hj. inversion Hj; subst b. congruence.
  - intros i j a b da db_ Hlt Hi Hj Ha Hb.
    pose proof (StronglySorted_nth _ _ Hdue i j a b Hlt Hi Hj) as Hord.
    unfold dueOrdered in Hord. now rewrite Ha, Hb in Hord.
  - intros x y z Hx Hy Hz.
    assert (Hyz : (sortOrder (compareTickets due_date y z) <=? 0) = false).
    { unfold compareTickets. rewrite Hz.
      destruct (dueDate y); try discriminate; reflexivity. }
    assert (Hxz : (sortOrder (compareTickets due_date x z) <=? 0) = false).
    { unfold compareTickets. rewrite Hx, Hz. reflexivity. }
    assert (Hxy : (sortOrder (compareTickets due_date x y) <=? 0) = true).
    { unfold compareTickets. rewrite Hx.
      destruct (dueDate y); try discriminate; reflexivity. }
    unfold sortedTickets, sortWith. cbn [fold_right insertSorted].
    rewrite Hyz. cbn [insertSorted]. rewrite Hxz, Hxy. reflexivity.
Qed.

Lemma sort_by_due_date_witness :
  let x := ticketDue "x" "open" (val mar01) in
  let y := ticketDue "y" "open" undefined in
  let z := ticketDue "z" "open" (val jan01) in
  sortedTickets due_date [x; y; z] = [z; x; y].
Proof.
  intros x y z.
  destruct (sort_by_due_date [x; y; z]) as (_ & _ & _ & _ & Hexample).
  apply Hexample; reflexivity.
Defined.

(** ** Sample runs *)

(** A field engineer sees the ticket assigned to them and not the other
    engineer's; a supervisor sees both. *)
Example engineer_sees_own_tickets :
  let mine := transformTicket assignedRow in
  let theirs := transformTicket (rawTicket "t2" "eng-2") in
  getFilteredTickets engineerSession noFilters [mine; theirs] = [mine]
  /\ getFilteredTickets supervisorSession noFilters [mine; theirs]
     = [mine; theirs].
Proof. split; reflexivity. Qed.

(** The search term is matched case-insensitively against title, description
    and location. *)
Example search_is_case_insensitive :
  let t := transformTicket (rawTicket "t1" "eng-2") in
  getFilteredTickets supervisorSession (mkFilters "PLANT b" "all" "all" "all")
    [t] = [t]
  /\ getFilteredTickets supervisorSession (mkFilters "pump" "all" "all" "all")
       [t] = [].
Proof. split; reflexivity. Qed.

(** Sorting by priority puts critical first and an unknown priority last. *)
Example sort_by_priority_example :
  let p x := mkTicket x "" "" "" x "open" "eng-2" undefined jan01 jan01
                      undefined undefined undefined undefined undefined in
  map priority
      (sortedTickets by_priority
         [p "critical"; p "low"; p "high"; p "medium"; p ""])
  = ["critical"; "high"; "medium"; "low"; ""].
Proof. reflexivity. Qed.

(** With notifications that reject, a creation still goes through. *)
Example create_with_broken_notifications :
  let t := transformCreated (createdRecord "t9" jun01 "eng-1" noUpdates) in
  createTicket engineerSession sampleDb (brokenNotifications networkError)
    noUpdates loadedStore =
  (Fulfilled t,
   mkStore (t :: tickets loadedStore) false null
     [DbCreateTicket "eng-1" noUpdates;
      NotifyCreated t;
      Console "warn" "Failed to send ticket creation notifications:";
      Toast "Ticket created" "Your ticket has been created successfully."
            false]).
Proof. reflexivity. Qed.

(* ================================================================== *)
(** * Further properties of the store *)

(** ** Calls without a session *)

(** X1. Without a signed-in user the five ticket writes of the hook
    ([createTicket], [updateTicket] whatever [Date] objects it is given,
    [updateTicketStatus], [assignTicket], [deleteTicket]) reject with the
    error "User not authenticated" and leave the store as it was: the
    collection, the loading flag and the error state are unchanged and the
    log, which records every call to the ticket gateway and to the
    notifications, every toast and every console entry, has no new entry.
    The guard stands before the [try] of each function, so the rejection is
    not toasted, and before the date conversions of [updateTicket], so an
    Invalid Date does not turn it into a [RangeError]. [addComment] and
    [addNote] reject with the same error and the same untouched store,
    whatever their gateway would have answered. *)
Theorem signed_out_writes_rejected sess db ns st :
  user sess = None ->
  let denied {A : Type} (m : M A) :=
    m st = (Rejected (Error "User not authenticated"), st) in
  (forall ticketData, denied (createTicket sess db ns ticketData))
  /\ (forall now ticketId p,
         denied (updateTicketUnchecked sess db ns now ticketId p))
  /\ (forall now ticketId status_,
         denied (updateTicketStatus sess db ns now ticketId status_))
  /\ (forall now ticketId assignedTo_,
         denied (assignTicket sess db ns now ticketId assignedTo_))
  /\ (forall ticketId, denied (deleteTicket sess db ticketId))
  /\ (forall aux ticketId comment,
         denied (addComment sess aux ticketId comment))
  /\ (forall aux ticketId note, denied (addNote sess aux ticketId note)).
Proof.
  intros Hu denied. unfold denied.
  repeat split; intros;
    unfold createTicket, updateTicketUnchecked, updateTicketStatus,
      assignTicket, updateTicket, deleteTicket, addComment, addNote;
    rewrite Hu; reflexivity.
Qed.

Lemma signed_out_writes_rejected_witness :
  createTicket signedOutSession sampleDb quietNotifications noUpdates
    loadedStore
  = (Rejected (Error "User not authenticated"), loadedStore)
  /\ updateTicketUnchecked signedOutSession sampleDb quietNotifications mar01
       "t1" resolveWithInvalidDue loadedStore
     = (Rejected (Error "User not authenticated"), loadedStore)
  /\ deleteTicket signedOutSession sampleDb "t1" loadedStore
     = (Rejected (Error "User not authenticated"), loadedStore)
  /\ addComment signedOutSession (failingAux networkError) "t1" "on my way"
       loadedStore
     = (Rejected (Error "User not authenticated"), loadedStore).
Proof.
  destruct (signed_out_writes_rejected signedOutSession sampleDb
              quietNotifications loadedStore eq_refl)
    as (Hcreate & Hupdate & _ & _ & Hdelete & Hcomment & _).
  split; [apply Hcreate | split; [apply Hupdate | split;
    [apply Hdelete | apply Hcomment]]].
Defined.

(** ** loadTickets and the session effect *)

(** X2. When the gateway answers the fetch, [loadTickets] replaces the
    collection wholesale by the transformed records, in the gateway's order,
    clears the error state and ends loading; what the collection held
    before plays no part, so a second load against the same answer changes
    nothing. *)
Theorem loadTickets_replaces_collection sess db u p d st :
  user sess = Some u ->
  profile sess = Some p ->
  db_getTicketsWithRelations db (user_id u) (role p) = Fulfilled d ->
  loadTickets sess db st =
  (Fulfilled tt,
   mkStore (map transformTicket d) false null
           (effects st ++ [DbGetTickets (user_id u) (role p)]))
  /\ (forall st2,
         tickets (snd (loadTickets sess db st2))
         = tickets (snd (loadTickets sess db st)))
  /\ (forall i r, nth_error d i = Some r ->
         nth_error (tickets (snd (loadTickets sess db st))) i
         = Some (transformTicket r)).
Proof.
  intros Hu Hp Hdb.
  assert (Hrun : forall s,
             loadTickets sess db s =
             (Fulfilled tt,
              mkStore (map transformTicket d) false null
                      (effects s ++ [DbGetTickets (user_id u) (role p)]))).
  { intro s. unfold loadTickets. rewrite Hu, Hp. run. rewrite Hdb.
    reflexivity. }
  split; [apply Hrun | split].
  - intro st2. now rewrite !Hrun.
  - intros i r Hi. rewrite Hrun. simpl. rewrite nth_error_map, Hi.
    reflexivity.
Qed.

Lemma loadTickets_replaces_collection_witness :
  loadTickets supervisorSession sampleDb initialStore =
  (Fulfilled tt,
   mkStore (map transformTicket
                [rawTicket "t1" "eng-2"; rawTicket "t2" "eng-2";
                 rawTicket "t3" "eng-2"])
           false null [DbGetTickets "sup-1" "supervisor"]).
Proof.
  apply (loadTickets_replaces_collection supervisorSession sampleDb
           (mkUser "sup-1") (mkProfile "supervisor")
           [rawTicket "t1" "eng-2"; rawTicket "t2" "eng-2";
            rawTicket "t3" "eng-2"] initialStore); reflexivity.
Defined.

(** X3. Without a user or without a profile the session effect of the hook
    empties the collection and ends loading, without calling the gateway;
    a direct [loadTickets] in that situation does nothing at all, so it
    neither empties the collection nor ends loading. *)
Theorem session_effect_without_session sess db st :
  user sess = None \/ profile sess = None ->
  sessionEffect sess db st =
  (Fulfilled tt, mkStore [] false (error st) (effects st))
  /\ loadTickets sess db st = (Fulfilled tt, st).
Proof.
  intros Hnone. unfold sessionEffect, loadTickets.
  destruct Hnone as [H | H]; rewrite H.
  - split; reflexivity.
  - destruct (user sess); split; reflexivity.
Qed.

Lemma session_effect_without_session_witness :
  sessionEffect signedOutSession sampleDb loadedStore =
  (Fulfilled tt, mkStore [] false null [])
  /\ loadTickets signedOutSession sampleDb loadedStore
     = (Fulfilled tt, loadedStore).
Proof.
  apply (session_effect_without_session signedOutSession sampleDb loadedStore).
  left. reflexivity.
Defined.

(** ** updateTicket: failure, and which notifications go out *)

(** X4. When the gateway's [updateTicket] fails, by rejecting or by
    returning an error, [updateTicket] rejects with that error; when it
    resolves with neither error nor data, [updateTicket] rejects with the
    [TypeError] of reading the missing record. Either way the collection,
    the loading flag and the error state are as before, and all the call
    leaves behind is the gateway call, a console entry and the failure
    toast: no notification, no success toast. *)
Theorem updateTicket_failure_keeps_collection
  sess db ns u now ticketId updates st :
  user sess = Some u ->
  let f := dbUpdatesOf (user_id u) now updates in
  let failed e :=
    updateTicket sess db ns now ticketId updates st =
    (Rejected e,
     mkStore (tickets st) (loading st) (error st)
       (effects st ++
        [DbUpdateTicket ticketId f;
         Console "log" "";
         Toast "Failed to update ticket"
               (or_else (message e)
                        "An error occurred while updating the ticket.")
               true])) in
  (forall e,
      db_updateTicket db ticketId f = Rejected e
      \/ (exists r, db_updateTicket db ticketId f = Fulfilled r
                    /\ error_ r = Some e) ->
      failed e)
  /\ (db_updateTicket db ticketId f = Fulfilled (mkResponse None None) ->
      failed (TypeError_undefined "createdAt")).
Proof.
  intros Hu f failed. unfold failed. split.
  - intros e Hfail. unfold updateTicket. rewrite Hu. run. fold f.
    destruct Hfail as [Hrej | [r [Hres Herr]]].
    + rewrite Hrej. simpl. now rewrite app3.
    + rewrite Hres. simpl. rewrite Herr. simpl. now rewrite app3.
  - intro Hnone. unfold updateTicket. rewrite Hu. run. fold f.
    rewrite Hnone. simpl. now rewrite app3.
Qed.

Lemma updateTicket_failure_keeps_collection_witness :
  updateTicket engineerSession (failingDb networkError) quietNotifications
    mar01 "t1" (statusUpdates "resolved") loadedStore =
  (Rejected networkError,
   mkStore (tickets loadedStore) false null
     [DbUpdateTicket "t1" (dbUpdatesOf "eng-1" mar01 (statusUpdates "resolved"));
      Console "log" "";
      Toast "Failed to update ticket" "Network request failed" true]).
Proof.
  destruct (updateTicket_failure_keeps_collection engineerSession
              (failingDb networkError) quietNotifications (mkUser "eng-1")
              mar01 "t1" (statusUpdates "resolved") loadedStore eq_refl)
    as [Hfail _].
  apply (Hfail networkError). left. reflexivity.
Defined.

(** X5. The two notifications of an update share one [try]: when the update
    sets status [resolved] and the resolved-notification rejects, the
    assignment notification is not attempted, whoever the assignee is; the
    update itself still succeeds, and its effects are exactly the gateway
    call, the one notification, the console warning and the success toast. *)
Theorem failed_resolve_notification_skips_assignment
  sess db ns u now ticketId updates d e st :
  user sess = Some u ->
  u_status updates = Some "resolved" ->
  updateSucceeds db ticketId (dbUpdatesOf (user_id u) now updates) d ->
  notifyTicketResolved ns (transformTicket d) (user_id u) = Rejected e ->
  updateTicket sess db ns now ticketId updates st =
  (Fulfilled (transformTicket d),
   mkStore (replaceById ticketId (transformTicket d) (tickets st))
     (loading st) (error st)
     (effects st ++
      [DbUpdateTicket ticketId (dbUpdatesOf (user_id u) now updates);
       NotifyResolved (transformTicket d) (user_id u);
       Console "warn" "Failed to send ticket update notifications:";
       Toast "Ticket updated" "The ticket has been updated successfully."
             false])).
Proof.
  intros Hu Hs Hok Hrej.
  unfold updateTicket, notifyUpdate. rewrite Hu. run.
  rewrite Hok. simpl. rewrite (status_is_eq _ _ Hs). simpl.
  rewrite Hrej. simpl. now rewrite <- !app_assoc.
Qed.

Lemma failed_resolve_notification_skips_assignment_witness :
  let updates :=
    mkUpdates None None None None None (Some "resolved") None
              (Some (val "eng-1")) None None None None None None None in
  let d := applyFields jun01 (rawTicket "t1" "eng-2")
             (dbUpdatesOf "sup-1" mar01 updates) in
  updateTicket supervisorSession sampleDb (brokenNotifications networkError)
    mar01 "t1" updates loadedStore =
  (Fulfilled (transformTicket d),
   mkStore (replaceById "t1" (transformTicket d) (tickets loadedStore))
     false null
     [DbUpdateTicket "t1" (dbUpdatesOf "sup-1" mar01 updates);
      NotifyResolved (transformTicket d) "sup-1";
      Console "warn" "Failed to send ticket update notifications:";
      Toast "Ticket updated" "The ticket has been updated successfully."
            false]).
Proof.
  intros updates d.
  apply (failed_resolve_notification_skips_assignment supervisorSession
           sampleDb (brokenNotifications networkError) (mkUser "sup-1") mar01
           "t1" updates d networkError loadedStore); reflexivity.
Defined.

Lemma in_app_single_other {A : Type} (x e : A) (l : list A) :
  x <> e -> In x (l ++ [e]) -> In x l.
Proof.
  intros Hne Hin. apply in_app_or in Hin. destruct Hin as [Hin | [Heq | []]].
  - exact Hin.
  - symmetry in Heq. contradiction.
Qed.

(** X6. A successful [assignTicket] notifies the assignee exactly when the
    assignee id is non-empty and differs from the creator of the record the
    gateway returned: then the assignment notification follows the gateway
    call; for [null], for the empty id and for the creator the effects are
    the gateway call and the success toast alone. The resolved-notification
    never goes out. *)
Theorem assignTicket_notifies_assignee sess db ns u now ticketId assignee d st :
  user sess = Some u ->
  let f := dbUpdatesOf (user_id u) now (assignUpdates now assignee) in
  updateSucceeds db ticketId f d ->
  let t := transformTicket d in
  let fx := effects (snd (assignTicket sess db ns now ticketId assignee st)) in
  (forall a, assignee = Some a -> a <> "" -> a <> createdBy t ->
     exists rest,
       fx = effects st
            ++ DbUpdateTicket ticketId f
               :: NotifyAssigned t a (user_id u) :: rest)
  /\ (assignee = None \/ assignee = Some "" \/ assignee = Some (createdBy t) ->
      fx = effects st
           ++ [DbUpdateTicket ticketId f;
               Toast "Ticket updated"
                     "The ticket has been updated successfully." false])
  /\ (forall t' actor, In (NotifyResolved t' actor) fx ->
                       In (NotifyResolved t' actor) (effects st)).
Proof.
  intros Hu f Hok t fx.
  assert (Hstatus : status_is (assignUpdates now assignee) "resolved" = false).
  { unfold status_is, assignUpdates. cbn [u_status].
    destruct (truthy_str _); reflexivity. }
  assert (Hrun :
    fx = effects
           (snd (notifyUpdate ns (user_id u) (assignUpdates now assignee) t
                   (mkStore (replaceById ticketId t (tickets st)) (loading st)
                      (error st) (effects st ++ [DbUpdateTicket ticketId f]))))
         ++ [Toast "Ticket updated"
                   "The ticket has been updated successfully." false]).
  { unfold fx, assignTicket, updateTicket. rewrite Hu. run. fold f.
    rewrite Hok. simpl. fold t.
    destruct (notifyUpdate ns (user_id u) (assignUpdates now assignee) t _)
      as [[[] | e] s'] eqn:E; simpl; try reflexivity.
    destruct (notifyUpdate_harmless ns (user_id u)
                (assignUpdates now assignee) t
                (mkStore (replaceById ticketId t (tickets st)) (loading st)
                   (error st) (effects st ++ [DbUpdateTicket ticketId f])))
      as [fx' Hfx'].
    rewrite Hfx' in E. discriminate. }
  rewrite Hrun. clear Hrun fx.
  unfold notifyUpdate. rewrite Hstatus. run.
  split; [| split].
  - intros a -> Hne Hcr. unfold assignUpdates. cbn [u_assignedTo get].
    apply String.eqb_neq in Hne, Hcr. rewrite Hne, Hcr. simpl.
    destruct (notifyTicketAssigned ns t a (user_id u)) as [[] | e]; simpl;
      eexists; rewrite <- !app_assoc; reflexivity.
  - intros [-> | [-> | ->]]; unfold assignUpdates; cbn [u_assignedTo get].
    + simpl. now rewrite <- app_assoc.
    + simpl. now rewrite <- app_assoc.
    + rewrite String.eqb_refl, andb_false_r. simpl. now rewrite <- app_assoc.
  - intros t' actor. unfold assignUpdates. cbn [u_assignedTo get].
    destruct assignee as [a |];
      [destruct (negb (a =? "")%string && negb (a =? raw_createdBy d)%string);
       [destruct (notifyTicketAssigned ns t a (user_id u)) as [[] | e] |] |];
      simpl; intro Hin;
      repeat (apply in_app_single_other in Hin; [| discriminate]);
      exact Hin.
Qed.

Lemma assignTicket_notifies_assignee_witness :
  (exists rest,
      effects (snd (assignTicket supervisorSession sampleDb quietNotifications
                      mar01 "t1" (Some "eng-1") loadedStore))
      = effects loadedStore
        ++ DbUpdateTicket "t1"
             (dbUpdatesOf "sup-1" mar01 (assignUpdates mar01 (Some "eng-1")))
           :: NotifyAssigned (transformTicket assignedRow) "eng-1" "sup-1"
           :: rest)
  /\ effects (snd (assignTicket supervisorSession sampleDb quietNotifications
                     mar01 "t1" (Some "eng-2") loadedStore))
     = effects loadedStore
       ++ [DbUpdateTicket "t1"
             (dbUpdatesOf "sup-1" mar01 (assignUpdates mar01 (Some "eng-2")));
           Toast "Ticket updated" "The ticket has been updated successfully."
                 false].
Proof.
  split.
  - destruct (assignTicket_notifies_assignee supervisorSession sampleDb
                quietNotifications (mkUser "sup-1") mar01 "t1" (Some "eng-1")
                assignedRow loadedStore eq_refl eq_refl) as (Hnotify & _ & _).
    apply (Hnotify "eng-1"); [reflexivity | discriminate | discriminate].
  - destruct (assignTicket_notifies_assignee supervisorSession sampleDb
                quietNotifications (mkUser "sup-1") mar01 "t1" (Some "eng-2")
                (applyFields jun01 (rawTicket "t1" "eng-2")
                   (dbUpdatesOf "sup-1" mar01
                      (assignUpdates mar01 (Some "eng-2"))))
                loadedStore eq_refl eq_refl) as (_ & Hquiet & _).
    apply Hquiet. right. right. reflexivity.
Defined.

(** ** deleteTicket and how the writes compose *)

Lemma filter_idem {A : Type} (p : A -> bool) (l : list A) :
  filter p (filter p l) = filter p l.
Proof.
  induction l as [| x l IH]; [reflexivity |].
  simpl. destruct (p x) eqn:E; simpl; [rewrite E; f_equal |]; exact IH.
Qed.

Lemma filter_keeps_all {A : Type} (p : A -> bool) (l : list A) :
  (forall x, In x l -> p x = true) -> filter p l = l.
Proof.
  induction l as [| x l IH]; intro Hall; [reflexivity |].
  simpl. rewrite (Hall x) by now left.
  f_equal. apply IH. intros y Hy. apply Hall. now right.
Qed.

(** X7. After [deleteTicket] by a signed-in user the collection holds
    exactly the former tickets whose id differs from [ticketId], in their
    former order; a second [deleteTicket] of the same id changes nothing
    more, and deleting an id that no local ticket has leaves the collection
    as it was, while still showing the success toast. *)
Theorem deleteTicket_postcondition sess db u ticketId st :
  user sess = Some u ->
  let st' := snd (deleteTicket sess db ticketId st) in
  (forall t, In t (tickets st') <-> In t (tickets st) /\ id t <> ticketId)
  /\ tickets st' = filter (fun t => negb (id t =? ticketId)%string) (tickets st)
  /\ tickets (snd (deleteTicket sess db ticketId st')) = tickets st'
  /\ ((forall t, In t (tickets st) -> id t <> ticketId) ->
      tickets st' = tickets st
      /\ In (Toast "Ticket deleted"
                   "The ticket has been deleted successfully." false)
            (effects st')).
Proof.
  intros Hu st'.
  assert (Hrun : forall s,
             tickets (snd (deleteTicket sess db ticketId s))
             = filter (fun t => negb (id t =? ticketId)%string) (tickets s)
             /\ In (Toast "Ticket deleted"
                          "The ticket has been deleted successfully." false)
                   (effects (snd (deleteTicket sess db ticketId s)))).
  { intro s. pose proof (deleteTicket_ignores_gateway sess db u ticketId s Hu)
      as H.
    destruct (deleteTicket sess db ticketId s) as [r s']. simpl. tauto. }
  destruct (Hrun st) as [Hst' Htoast]. fold st' in Hst', Htoast.
  split; [| split; [| split]].
  - intro t. rewrite Hst', filter_In, negb_true_iff, String.eqb_neq. tauto.
  - exact Hst'.
  - destruct (Hrun st') as [H2 _]. rewrite H2, Hst'. apply filter_idem.
  - intro Habs. split; [| exact Htoast]. rewrite Hst'.
    apply filter_keeps_all. intros t Ht.
    apply negb_true_iff, String.eqb_neq, Habs, Ht.
Qed.

Lemma deleteTicket_postcondition_witness :
  tickets (snd (deleteTicket engineerSession sampleDb "t1" loadedStore))
  = [transformTicket (rawTicket "t2" "eng-2")]
  /\ tickets (snd (deleteTicket engineerSession sampleDb "t7" loadedStore))
     = tickets loadedStore.
Proof.
  split.
  - destruct (deleteTicket_postcondition engineerSession sampleDb
                (mkUser "eng-1") "t1" loadedStore eq_refl) as (_ & Hfilter & _).
    exact Hfilter.
  - destruct (deleteTicket_postcondition engineerSession sampleDb
                (mkUser "eng-1") "t7" loadedStore eq_refl)
      as (_ & _ & _ & Habsent).
    apply Habsent. intros t [<- | [<- | []]]; discriminate.
Defined.

(** X8. Creating a ticket and then deleting it gives back the collection
    from before, provided the id the gateway generated is the id of no local
    ticket; both calls are fulfilled. *)
Theorem create_then_delete_restores sess db ns u ticketData d st :
  user sess = Some u ->
  createSucceeds db (user_id u) ticketData d ->
  (forall t, In t (tickets st) -> id t <> raw_id d) ->
  let (r1, st1) := createTicket sess db ns ticketData st in
  let (r2, st2) := deleteTicket sess db (raw_id d) st1 in
  r1 = Fulfilled (transformCreated d)
  /\ r2 = Fulfilled tt
  /\ tickets st2 = tickets st.
Proof.
  intros Hu Hok Hfresh.
  destruct (createTicket_success_run sess db ns u ticketData d st Hu Hok)
    as [fx Hrun].
  rewrite Hrun.
  pose proof (deleteTicket_ignores_gateway sess db u (raw_id d)
                (mkStore (transformCreated d :: tickets st) (loading st)
                   (error st)
                   (fx ++ [Toast "Ticket created"
                                 "Your ticket has been created successfully."
                                 false])) Hu) as Hdel.
  destruct (deleteTicket sess db (raw_id d) _) as [r2 st2].
  destruct Hdel as (Hr2 & Ht2 & _).
  repeat split; [exact Hr2 |].
  rewrite Ht2. cbn [tickets filter].
  replace (id (transformCreated d)) with (raw_id d) by reflexivity.
  rewrite String.eqb_refl. cbn [negb].
  apply filter_keeps_all. intros t Ht.
  apply negb_true_iff, String.eqb_neq, Hfresh, Ht.
Qed.

Lemma create_then_delete_restores_witness :
  let (r1, st1) := createTicket engineerSession sampleDb quietNotifications
                     noUpdates loadedStore in
  let (r2, st2) := deleteTicket engineerSession sampleDb "t9" st1 in
  r1 = Fulfilled (transformCreated (createdRecord "t9" jun01 "eng-1" noUpdates))
  /\ r2 = Fulfilled tt
  /\ tickets st2 = tickets loadedStore.
Proof.
  apply (create_then_delete_restores engineerSession sampleDb
           quietNotifications (mkUser "eng-1") noUpdates
           (createdRecord "t9" jun01 "eng-1" noUpdates) loadedStore).
  - reflexivity.
  - reflexivity.
  - intros t [<- | [<- | []]]; discriminate.
Defined.

Lemma replaceById_match ticketId t' prev i t :
  nth_error prev i = Some t ->
  id t = ticketId ->
  nth_error (replaceById ticketId t' prev) i = Some t'.
Proof.
  intros Hnth Hid. unfold replaceById. rewrite nth_error_map, Hnth. simpl.
  apply String.eqb_eq in Hid. now rewrite Hid.
Qed.

Lemma replaceById_ids ticketId t' prev :
  id t' = ticketId ->
  map id (replaceById ticketId t' prev) = map id prev.
Proof.
  intro Hid. unfold replaceById. rewrite map_map. apply map_ext. intro t.
  destruct (id t =? ticketId)%string eqn:E; [| reflexivity].
  apply String.eqb_eq in E. congruence.
Qed.

Lemma replaceById_idem ticketId t' prev :
  id t' = ticketId ->
  replaceById ticketId t' (replaceById ticketId t' prev)
  = replaceById ticketId t' prev.
Proof.
  intro Hid. unfold replaceById. rewrite map_map. apply map_ext. intro t.
  destruct (id t =? ticketId)%string eqn:E; [| now rewrite E].
  apply String.eqb_eq in Hid. now rewrite Hid.
Qed.

(** X9. After a successful [updateTicket], every position that held a
    ticket with the id [ticketId] holds the record the gateway returned (all
    of them, should the id occur more than once). The id of the returned
    record is not checked: when it is [ticketId], the ids of the collection
    are what they were, position by position, and repeating the update with
    the same answer changes nothing more. *)
Theorem updateTicket_replaces_matches sess db ns u now ticketId updates d st :
  user sess = Some u ->
  updateSucceeds db ticketId (dbUpdatesOf (user_id u) now updates) d ->
  let st' := snd (updateTicket sess db ns now ticketId updates st) in
  (forall i t, nth_error (tickets st) i = Some t ->
               id t = ticketId ->
               nth_error (tickets st') i = Some (transformTicket d))
  /\ (raw_id d = ticketId ->
      map id (tickets st') = map id (tickets st)
      /\ tickets (snd (updateTicket sess db ns now ticketId updates st'))
         = tickets st').
Proof.
  intros Hu Hok st'.
  assert (Hrun : forall s,
             tickets (snd (updateTicket sess db ns now ticketId updates s))
             = replaceById ticketId (transformTicket d) (tickets s)).
  { intro s.
    destruct (updateTicket_success_run sess db ns u now ticketId updates d s
                Hu Hok) as [fx Hs].
    now rewrite Hs. }
  unfold st'. split.
  - intros i t Hi Hid. rewrite Hrun.
    eapply replaceById_match; eassumption.
  - intro Hid. rewrite !Hrun. split.
    + now apply replaceById_ids.
    + now apply replaceById_idem.
Qed.

Lemma updateTicket_replaces_matches_witness :
  let d := applyFields jun01 (rawTicket "t1" "eng-2")
             (dbUpdatesOf "eng-1" mar01 (statusUpdates "in_progress")) in
  let st' := snd (updateTicket engineerSession sampleDb quietNotifications
                    mar01 "t1" (statusUpdates "in_progress") loadedStore) in
  nth_error (tickets st') 0 = Some (transformTicket d)
  /\ map id (tickets st') = ["t1"; "t2"].
Proof.
  intros d st'.
  destruct (updateTicket_replaces_matches engineerSession sampleDb
              quietNotifications (mkUser "eng-1") mar01 "t1"
              (statusUpdates "in_progress") d loadedStore eq_refl eq_refl)
    as [Hmatch Hids].
  split.
  - apply (Hmatch 0%nat (transformTicket (rawTicket "t1" "eng-2")));
      reflexivity.
  - destruct (Hids eq_refl) as [Hmap _]. exact Hmap.
Defined.

(** ** Comments, notes, activities and media *)

(** The three answers of a gateway write against the two cases of the
    statement below. *)
Ltac settle_answer :=
  split; [reflexivity | split; [reflexivity | split; [reflexivity | split]]];
  [ intros r1 H1 H2; try discriminate; inversion H1; subst;
    try congruence; (split; reflexivity)
  | intros e [H1 | [r1 [H1 H2]]]; try discriminate; inversion H1; subst;
    try congruence;
    try match goal with
        | E : error_ ?r = Some _, H : error_ ?r = Some _ |- _ =>
            rewrite E in H; inversion H; subst
        end;
    (split; [reflexivity | now rewrite <- !app_assoc]) ].

(** X10. [addComment] and [addNote] by a signed-in user never touch the
    ticket collection, the loading flag or the error state. When the gateway
    accepts, the call is fulfilled and its only effect is the confirmation
    toast; when the gateway rejects or returns an error, the call rejects
    with that error after a console entry and the failure toast. *)
Theorem comments_and_notes_leave_collection sess aux u ticketId text st :
  user sess = Some u ->
  let outcome (m : M unit) (answer : Settled (Response unit))
              (okTitle okText failLabel failTitle failText : string) :=
    let (r, st') := m st in
    tickets st' = tickets st /\ loading st' = loading st
    /\ error st' = error st
    /\ (forall r0, answer = Fulfilled r0 -> error_ r0 = None ->
          r = Fulfilled tt
          /\ effects st' = effects st ++ [Toast okTitle okText false])
    /\ (forall e,
          answer = Rejected e
          \/ (exists r0, answer = Fulfilled r0 /\ error_ r0 = Some e) ->
          r = Rejected e
          /\ effects st' =
             effects st ++ [Console "error" failLabel;
                            Toast failTitle (or_else (message e) failText)
                                  true]) in
  outcome (addComment sess aux ticketId text)
          (db_addTicketComment aux (user_id u) ticketId text)
          "Comment added" "Your comment has been added to the ticket."
          "Error adding comment:" "Failed to add comment"
          "An error occurred while adding the comment."
  /\ outcome (addNote sess aux ticketId text)
             (db_addTicketNote aux (user_id u) ticketId text)
             "Note added" "Your note has been added to the ticket."
             "Error adding note:" "Failed to add note"
             "An error occurred while adding the note.".
Proof.
  intros Hu outcome. unfold outcome. destruct st as [ts ld er fx0].
  split; [unfold addComment | unfold addNote]; rewrite Hu; run.
  - destruct (db_addTicketComment aux (user_id u) ticketId text) as [r0 | e0];
      [destruct (error_ r0) as [e0 |] eqn:E |]; simpl; settle_answer.
  - destruct (db_addTicketNote aux (user_id u) ticketId text) as [r0 | e0];
      [destruct (error_ r0) as [e0 |] eqn:E |]; simpl; settle_answer.
Qed.

Lemma comments_and_notes_leave_collection_witness :
  addComment engineerSession quietAux "t1" "on my way" loadedStore
  = (Fulfilled tt,
     mkStore (tickets loadedStore) false null
       [Toast "Comment added" "Your comment has been added to the ticket."
              false])
  /\ addNote engineerSession (failingAux networkError) "t1" "valve replaced"
       loadedStore
     = (Rejected networkError,
        mkStore (tickets loadedStore) false null
          [Console "error" "Error adding note:";
           Toast "Failed to add note" "Network request failed" true]).
Proof.
  split.
  - destruct (comments_and_notes_leave_collection engineerSession quietAux
                (mkUser "eng-1") "t1" "on my way" loadedStore eq_refl)
      as [Hcomment _].
    destruct (addComment engineerSession quietAux "t1" "on my way" loadedStore)
      as [r [ts ld er fx]].
    destruct Hcomment as (Ht & Hl & He & Hok & _).
    destruct (Hok (mkResponse (Some tt) None) eq_refl eq_refl) as [Hr Hfx].
    simpl in Ht, Hl, He, Hfx. now subst.
  - destruct (comments_and_notes_leave_collection engineerSession
                (failingAux networkError) (mkUser "eng-1") "t1"
                "valve replaced" loadedStore eq_refl) as [_ Hnote].
    destruct (addNote engineerSession (failingAux networkError) "t1"
                "valve replaced" loadedStore) as [r [ts ld er fx]].
    destruct Hnote as (Ht & Hl & He & _ & Hfail).
    destruct (Hfail networkError (or_introl eq_refl)) as [Hr Hfx].
    simpl in Ht, Hl, He, Hfx. now subst.
Defined.

(** X11. [getTicketActivities] never rejects and never touches the state
    cells. When the gateway answers, it returns one activity per raw
    activity, in order, with [createdAt] as a date. When the gateway
    rejects, it returns the empty list and shows the failure toast twice:
    once from the inner [catch] with the gateway's message, once from the
    outer [catch] with the message of the [TypeError] that [data.map] on
    [undefined] raised. *)
Theorem getTicketActivities_never_rejects aux ticketId st :
  (forall d, db_getTicketActivities aux ticketId = Fulfilled d ->
     getTicketActivities aux ticketId st
     = (Fulfilled (map transformActivity d), st))
  /\ (forall e, db_getTicketActivities aux ticketId = Rejected e ->
        getTicketActivities aux ticketId st
        = (Fulfilled [],
           mkStore (tickets st) (loading st) (error st)
             (effects st ++
              [Console "log" "";
               Toast "Failed to load activities"
                     (or_else (message e)
                        "An error occurred while loading ticket activities.")
                     true;
               Console "error" "Error loading ticket activities:";
               Toast "Failed to load activities"
                     "Cannot read properties of undefined (reading 'map')"
                     true])))
  /\ (exists l, fst (getTicketActivities aux ticketId st) = Fulfilled l).
Proof.
  unfold getTicketActivities. run.
  destruct (db_getTicketActivities aux ticketId) as [d | e]; simpl;
    repeat split; try discriminate.
  - intros d' Hd. inversion Hd. reflexivity.
  - eexists. reflexivity.
  - intros e' He. inversion He; subst. now rewrite <- !app_assoc.
  - eexists. reflexivity.
Qed.

Lemma getTicketActivities_never_rejects_witness :
  getTicketActivities quietAux "t1" loadedStore
  = (Fulfilled [mkActivity "created" jan01; mkActivity "assigned" mar01],
     loadedStore)
  /\ fst (getTicketActivities (failingAux networkError) "t1" loadedStore)
     = Fulfilled [].
Proof.
  split.
  - destruct (getTicketActivities_never_rejects quietAux "t1" loadedStore)
      as (Hok & _ & _).
    apply (Hok [mkRawActivity "created" (Iso jan01);
                mkRawActivity "assigned" (Iso mar01)]).
    reflexivity.
  - destruct (getTicketActivities_never_rejects (failingAux networkError)
                "t1" loadedStore) as (_ & Hfail & _).
    rewrite (Hfail networkError eq_refl). reflexivity.
Defined.

(** X12. [getTicketMedia] never rejects and never touches the state cells.
    When the gateway answers, it returns one entry per raw entry, in order,
    with [createdAt] as a date; when the gateway rejects, it returns the
    empty list after one console entry and one failure toast carrying the
    gateway's message. *)
Theorem getTicketMedia_never_rejects aux ticketId st :
  (forall d, db_getTicketMedia aux ticketId = Fulfilled d ->
     getTicketMedia aux ticketId st = (Fulfilled (map transformMedia d), st))
  /\ (forall e, db_getTicketMedia aux ticketId = Rejected e ->
        getTicketMedia aux ticketId st
        = (Fulfilled [],
           mkStore (tickets st) (loading st) (error st)
             (effects st ++
              [Console "error" "Error loading ticket media:";
               Toast "Failed to load media"
                     (or_else (message e)
                        "An error occurred while loading ticket media.")
                     true])))
  /\ (exists l, fst (getTicketMedia aux ticketId st) = Fulfilled l).
Proof.
  unfold getTicketMedia. run.
  destruct (db_getTicketMedia aux ticketId) as [d | e]; simpl;
    repeat split; try discriminate.
  - intros d' Hd. inversion Hd. reflexivity.
  - eexists. reflexivity.
  - intros e' He. inversion He; subst. now rewrite <- !app_assoc.
  - eexists. reflexivity.
Qed.

Lemma getTicketMedia_never_rejects_witness :
  getTicketMedia quietAux "t1" loadedStore
  = (Fulfilled [mkTicketMedia "photo.jpg" jan01], loadedStore)
  /\ fst (getTicketMedia (failingAux networkError) "t1" loadedStore)
     = Fulfilled [].
Proof.
  split.
  - destruct (getTicketMedia_never_rejects quietAux "t1" loadedStore)
      as (Hok & _ & _).
    apply (Hok [mkRawMedia "photo.jpg" (Iso jan01)]). reflexivity.
  - destruct (getTicketMedia_never_rejects (failingAux networkError) "t1"
                loadedStore) as (_ & Hfail & _).
    rewrite (Hfail networkError eq_refl). reflexivity.
Defined.

(** ** The fields of an update besides the stamps *)





(** X14. The two ingress transformations agree on every attribute but
    [verifiedAt]: [createTicket] leaves it as the gateway sent it, an ISO
    string or [null], where [loadTickets] and [updateTicket] make it a date
    or [undefined]. So the ticket [createTicket] returns is the one a later
    load of the same record yields exactly when the record has no
    [verifiedAt] ([undefined]). *)
Theorem created_ticket_matches_loaded r :
  (transformCreated r = transformTicket r <-> raw_verifiedAt r = undefined)
  /\ id (transformCreated r) = id (transformTicket r)
  /\ status (transformCreated r) = status (transformTicket r)
  /\ createdBy (transformCreated r) = createdBy (transformTicket r)
  /\ assignedTo (transformCreated r) = assignedTo (transformTicket r)
  /\ createdAt (transformCreated r) = createdAt (transformTicket r)
  /\ updatedAt (transformCreated r) = updatedAt (transformTicket r)
  /\ assignedAt (transformCreated r) = assignedAt (transformTicket r)
  /\ resolvedAt (transformCreated r) = resolvedAt (transformTicket r)
  /\ dueDate (transformCreated r) = dueDate (transformTicket r)
  /\ (forall s, raw_verifiedAt r = val s ->
        verifiedAt (transformCreated r) = val (OfIso s)
        /\ verifiedAt (transformTicket r) = val (OfDate (newDate s))).
Proof.
  split; [| do 9 (split; [reflexivity |])].
  - unfold transformCreated, transformTicket. split.
    + intro Heq. injection Heq as Hv.
      destruct (raw_verifiedAt r); simpl in Hv; try discriminate; reflexivity.
    + intros ->. reflexivity.
  - intros s Hs. unfold transformCreated, transformTicket.
    cbn [verifiedAt]. rewrite Hs. split; reflexivity.
Qed.

Lemma created_ticket_matches_loaded_witness :
  let r := mkRaw "t5" "Pump" "Pump 2 stalls" "Plant A" "low" "verified" "eng-2"
                 (val "eng-1") (Iso jan01) (Iso mar01) (val (Iso jan01))
                 (val (Iso mar01)) (val (Iso mar01)) (val "sup-1") undefined in
  transformCreated (rawTicket "t1" "eng-2")
  = transformTicket (rawTicket "t1" "eng-2")
  /\ verifiedAt (transformCreated r) = val (OfIso (Iso mar01))
  /\ verifiedAt (transformTicket r) = val (OfDate mar01).
Proof.
  intro r.
  destruct (created_ticket_matches_loaded (rawTicket "t1" "eng-2"))
    as [[_ Hsame] _].
  destruct (created_ticket_matches_loaded r)
    as (_ & _ & _ & _ & _ & _ & _ & _ & _ & _ & Hstamp).
  split; [apply Hsame; reflexivity | apply (Hstamp (Iso mar01)); reflexivity].
Defined.

(* ================================================================== *)
(** * Further properties of the views *)

Lemma str_includes_empty s : str_includes s "" = true.
Proof. destruct s; simpl; reflexivity. Qed.

(** With an empty search term the search matches every ticket. *)
Lemma matchesFilters_no_search f t :
  searchTerm f = "" ->
  matchesFilters f t =
  ((statusFilter f =? "all")%string || (status t =? statusFilter f)%string)
  && ((priorityFilter f =? "all")%string
      || (priority t =? priorityFilter f)%string)
  && ((assignedFilter f =? "all")%string
      || ((assignedFilter f =? "unassigned")%string
          && negb (truthy_str (assignedTo t)))
      || strict_eq (assignedTo t) (val (assignedFilter f))).
Proof.
  intro Hs. unfold matchesFilters. rewrite Hs. cbn [toLowerCase].
  now rewrite str_includes_empty.
Qed.

(** X15. With an empty search and the three filters on "all", the filtered
    list is the whole visibility-scoped set, in the collection's order: the
    whole collection for an admin or supervisor, the user's own tickets
    otherwise. *)
Theorem default_filters_show_visible_set sess f tickets_ :
  searchTerm f = "" -> statusFilter f = "all" ->
  priorityFilter f = "all" -> assignedFilter f = "all" ->
  getFilteredTickets sess f tickets_ = userTickets sess tickets_
  /\ (canViewAllTickets sess = true ->
      getFilteredTickets sess f tickets_ = tickets_)
  /\ (canViewAllTickets sess = false ->
      getFilteredTickets sess f tickets_ = filter (isOwnTicket sess) tickets_).
Proof.
  intros Hs Hst Hp Ha.
  assert (Hall : getFilteredTickets sess f tickets_ = userTickets sess tickets_).
  { unfold getFilteredTickets. apply filter_keeps_all. intros t _.
    rewrite (matchesFilters_no_search f t Hs), Hst, Hp, Ha. reflexivity. }
  split; [exact Hall | split]; intro Hview; rewrite Hall;
    unfold userTickets; now rewrite Hview.
Qed.

Lemma default_filters_show_visible_set_witness :
  getFilteredTickets supervisorSession noFilters (tickets loadedStore)
  = tickets loadedStore.
Proof.
  destruct (default_filters_show_visible_set supervisorSession noFilters
              (tickets loadedStore) eq_refl eq_refl eq_refl eq_refl)
    as (_ & Hall & _).
  apply Hall. reflexivity.
Defined.

(** ** Sorting by the other keys *)

(** X17. Whatever the sort key, sorting neither drops nor adds a ticket: the
    sorted list has the length of the filtered list (the page's "Showing n
    of m" always shows n = m) and the same tickets, each as often as
    before. *)
Theorem sorting_keeps_every_ticket sortBy filteredTickets :
  length (sortedTickets sortBy filteredTickets) = length filteredTickets
  /\ Permutation filteredTickets (sortedTickets sortBy filteredTickets)
  /\ (forall t, In t (sortedTickets sortBy filteredTickets)
                <-> In t filteredTickets).
Proof.
  assert (Hperm : Permutation filteredTickets
                    (sortedTickets sortBy filteredTickets))
    by apply sortWith_perm.
  split; [| split].
  - symmetry. now apply Permutation_length.
  - exact Hperm.
  - intro t. split; intro Hin.
    + eapply Permutation_in; [apply Permutation_sym |]; eassumption.
    + eapply Permutation_in; eassumption.
Qed.

(** Two comparators that agree on the tickets of a list sort it alike. *)
Lemma insertSorted_ext_in (cmp cmp' : Ticket -> Ticket -> Z) x l :
  (forall y, In y l -> cmp x y = cmp' x y) ->
  insertSorted cmp x l = insertSorted cmp' x l.
Proof.
  induction l as [| y l IH]; intro Hext; [reflexivity |].
  cbn [insertSorted]. rewrite (Hext y (or_introl eq_refl)).
  destruct (cmp' x y <=? 0); [reflexivity |].
  f_equal. apply IH. intros z Hz. apply Hext. now right.
Qed.

Lemma sortWith_ext_in (cmp cmp' : Ticket -> Ticket -> Z) l :
  (forall a b, In a l -> In b l -> cmp a b = cmp' a b) ->
  sortWith cmp l = sortWith cmp' l.
Proof.
  induction l as [| x l IH]; intro Hext; [reflexivity |].
  cbn [sortWith fold_right]. fold (sortWith cmp l) (sortWith cmp' l).
  rewrite IH by (intros a b Ha Hb; apply Hext; now right).
  apply insertSorted_ext_in. intros y Hy. apply Hext; [now left | right].
  eapply Permutation_in; [apply Permutation_sym, sortWith_perm | exact Hy].
Qed.

(** A priority that is not a name inherited from [Object.prototype] has the
    rank of the specification as its number. *)
Lemma priorityOrder_plain p :
  inheritedMember p = false -> priorityOrder p = num (priorityRank p).
Proof.
  intro Hp. unfold priorityOrder, priorityRank. rewrite Hp.
  destruct (p =? "critical")%string; [reflexivity |].
  destruct (p =? "high")%string; [reflexivity |].
  destruct (p =? "medium")%string; [reflexivity |].
  destruct (p =? "low")%string; reflexivity.
Qed.

(** A priority that is such a name has no number. *)
Lemma priorityOrder_inherited p :
  inheritedMember p = true -> priorityOrder p = NaN.
Proof.
  intro Hp. unfold priorityOrder.
  destruct (p =? "critical")%string eqn:E1;
    [apply String.eqb_eq in E1; subst; discriminate |].
  destruct (p =? "high")%string eqn:E2;
    [apply String.eqb_eq in E2; subst; discriminate |].
  destruct (p =? "medium")%string eqn:E3;
    [apply String.eqb_eq in E3; subst; discriminate |].
  destruct (p =? "low")%string eqn:E4;
    [apply String.eqb_eq in E4; subst; discriminate |].
  now rewrite Hp.
Qed.

(** On tickets whose priorities are no inherited names, sorting by priority
    is sorting by the difference of the ranks. *)
Lemma sortedTickets_by_rank l :
  (forall t, In t l -> inheritedMember (priority t) = false) ->
  sortedTickets by_priority l
  = sortWith (fun a b => priorityRank (priority b) - priorityRank (priority a))
      l.
Proof.
  intro Hplain. unfold sortedTickets. apply sortWith_ext_in.
  intros a b Ha Hb. unfold compareTickets.
  rewrite (priorityOrder_plain _ (Hplain a Ha)),
          (priorityOrder_plain _ (Hplain b Hb)).
  reflexivity.
Qed.

(** X18. Sorting by creation or by update puts the newer ticket first.
    Where no ticket has as its priority a name that the object literal
    [priorityOrder] inherits ([toString], [constructor] and the like),
    the number of each priority is its rank (critical 4, high 3, medium 2,
    low 1, anything else 0) and sorting by priority puts a ticket of higher
    rank before every ticket of lower rank. In each case tickets that tie
    keep the order the filtered list had them in. A priority that is an
    inherited name makes the comparator return [NaN] against every ticket. *)
Theorem sort_by_other_keys l :
  ((forall t, In t l -> inheritedMember (priority t) = false) ->
   (forall t, In t l ->
              priorityOrder (priority t) = num (priorityRank (priority t)))
   /\ (forall i j a b,
          (i < j)%nat ->
          nth_error (sortedTickets by_priority l) i = Some a ->
          nth_error (sortedTickets by_priority l) j = Some b ->
          priorityRank (priority b) <= priorityRank (priority a))
   /\ (forall rank,
          filter (fun t => priorityRank (priority t) =? rank)
                 (sortedTickets by_priority l)
          = filter (fun t => priorityRank (priority t) =? rank) l))
  /\ (forall a b,
         inheritedMember (priority a) = true ->
         compareTickets by_priority a b = NaN
         /\ compareTickets by_priority b a = NaN)
  /\ (forall i j a b,
         (i < j)%nat ->
         nth_error (sortedTickets created l) i = Some a ->
         nth_error (sortedTickets created l) j = Some b ->
         createdAt b <= createdAt a)
  /\ (forall i j a b,
         (i < j)%nat ->
         nth_error (sortedTickets updated l) i = Some a ->
         nth_error (sortedTickets updated l) j = Some b ->
         updatedAt b <= updatedAt a)
  /\ (forall instant,
         filter (fun t => createdAt t =? instant) (sortedTickets created l)
         = filter (fun t => createdAt t =? instant) l)
  /\ (forall instant,
         filter (fun t => updatedAt t =? instant) (sortedTickets updated l)
         = filter (fun t => updatedAt t =? instant) l).
Proof.
  assert (Hsorted : forall k i j a b,
             k <> by_priority ->
             (i < j)%nat ->
             nth_error (sortedTickets k l) i = Some a ->
             nth_error (sortedTickets k l) j = Some b ->
             sortOrder (compareTickets k a b) <= 0).
  { intros k i j a b Hk Hij Hi Hj.
    destruct (sortedTickets_sorted k l Hk) as [_ Hs].
    exact (StronglySorted_nth _ _ Hs i j a b Hij Hi Hj). }
  split; [| split; [| split; [| split; [| split]]]].
  - intro Hplain. split; [| split].
    + intros t Ht. apply priorityOrder_plain. now apply Hplain.
    + intros i j a b Hij. rewrite (sortedTickets_by_rank l Hplain).
      intros Hi Hj.
      assert (Hs : StronglySorted
                     (fun x y => priorityRank (priority y)
                                 - priorityRank (priority x) <= 0)
                     (sortWith (fun x y => priorityRank (priority y)
                                           - priorityRank (priority x)) l)).
      { apply (sortWith_sorted
                 (fun x y => priorityRank (priority y)
                             - priorityRank (priority x)));
          intros; lia. }
      pose proof (StronglySorted_nth _ _ Hs i j a b Hij Hi Hj) as H.
      cbv beta in H. lia.
    + intro rank. rewrite (sortedTickets_by_rank l Hplain).
      apply (sortWith_stable
               (fun x y => priorityRank (priority y)
                           - priorityRank (priority x))).
      intros a b Ha Hb. apply Z.eqb_eq in Ha, Hb. lia.
  - intros a b Ha. unfold compareTickets.
    rewrite (priorityOrder_inherited _ Ha).
    split; [destruct (priorityOrder (priority b)) |]; reflexivity.
  - intros i j a b Hij Hi Hj.
    assert (Hk : created <> by_priority) by discriminate.
    pose proof (Hsorted created i j a b Hk Hij Hi Hj) as H.
    cbn [compareTickets sortOrder] in H. lia.
  - intros i j a b Hij Hi Hj.
    assert (Hk : updated <> by_priority) by discriminate.
    pose proof (Hsorted updated i j a b Hk Hij Hi Hj) as H.
    cbn [compareTickets sortOrder] in H. lia.
  - intro instant.
    apply (sortWith_stable (fun a b => sortOrder (compareTickets created a b))).
    intros a b Ha Hb. apply Z.eqb_eq in Ha, Hb.
    cbn [compareTickets sortOrder]. lia.
  - intro instant.
    apply (sortWith_stable (fun a b => sortOrder (compareTickets updated a b))).
    intros a b Ha Hb. apply Z.eqb_eq in Ha, Hb.
    cbn [compareTickets sortOrder]. lia.
Qed.

Lemma sort_by_other_keys_witness :
  let a := ticketDue "a" "open" undefined in
  let b := mkTicket "b" "Pump" "Pump 2 stalls" "Plant A" "critical" "open"
                    "eng-2" undefined mar01 mar01 undefined undefined
                    undefined undefined undefined in
  priorityRank (priority a) <= priorityRank (priority b)
  /\ createdAt a <= createdAt b.
Proof.
  intros a b.
  destruct (sort_by_other_keys [a; b]) as (Hprio & _ & Hcreated & _).
  assert (Hplain : forall t, In t [a; b] ->
                             inheritedMember (priority t) = false).
  { intros t [<- | [<- | []]]; reflexivity. }
  destruct (Hprio Hplain) as (_ & Hrank & _).
  split.
  - apply (Hrank 0%nat 1%nat b a); [lia | reflexivity | reflexivity].
  - apply (Hcreated 0%nat 1%nat b a); [lia | reflexivity | reflexivity].
Defined.

Lemma sortWith_sorted_id (cmp : Ticket -> Ticket -> Z) (l : list Ticket) :
  StronglySorted (fun a b => cmp a b <= 0) l -> sortWith cmp l = l.
Proof.
  induction 1 as [| x l Hsorted IH Hall]; [reflexivity |].
  cbn [sortWith fold_right]. fold (sortWith cmp l). rewrite IH.
  destruct l as [| y l']; [reflexivity |].
  cbn [insertSorted]. inversion Hall as [| ? ? Hxy _]; subst.
  apply Z.leb_le in Hxy. now rewrite Hxy.
Qed.

(** X19. Sorting is idempotent: a list that is already in the order of a
    sort key comes back from sorting by that key unchanged, ties included.
    For the priority key this is for lists in which no ticket has as its
    priority a name that [priorityOrder] inherits. *)
Theorem sorting_twice_changes_nothing sortBy l :
  (sortBy = by_priority ->
   forall t, In t l -> inheritedMember (priority t) = false) ->
  sortedTickets sortBy (sortedTickets sortBy l) = sortedTickets sortBy l.
Proof.
  intro Hplain.
  assert (Hcases : sortBy = by_priority \/ sortBy <> by_priority)
    by (destruct sortBy; (now left) || (right; discriminate)).
  destruct Hcases as [-> | Hk].
  - specialize (Hplain eq_refl).
    assert (Hplain' : forall t, In t (sortedTickets by_priority l) ->
                                inheritedMember (priority t) = false).
    { intros t Ht. apply Hplain.
      eapply Permutation_in; [apply Permutation_sym, sortWith_perm |].
      exact Ht. }
    rewrite (sortedTickets_by_rank _ Hplain').
    rewrite (sortedTickets_by_rank l Hplain).
    apply sortWith_sorted_id.
    apply (sortWith_sorted
             (fun x y => priorityRank (priority y)
                         - priorityRank (priority x)));
      intros; lia.
  - unfold sortedTickets at 1. apply sortWith_sorted_id.
    now destruct (sortedTickets_sorted sortBy l Hk) as [_ Hs].
Qed.

Lemma sorting_twice_changes_nothing_witness :
  let a := ticketDue "a" "open" undefined in
  let b := mkTicket "b" "Pump" "Pump 2 stalls" "Plant A" "critical" "open"
                    "eng-2" undefined mar01 mar01 undefined undefined
                    undefined undefined undefined in
  sortedTickets by_priority (sortedTickets by_priority [a; b])
  = sortedTickets by_priority [a; b]
  /\ sortedTickets by_priority [a; b] = [b; a].
Proof.
  intros a b. split; [| reflexivity].
  apply (sorting_twice_changes_nothing by_priority [a; b]).
  intros _ t [<- | [<- | []]]; reflexivity.
Defined.

(** ** Tabs, counts and the hook's helper filters *)

Lemma or_else_user_id u : or_else (val (user_id u)) "" = user_id u.
Proof.
  unfold or_else. destruct (user_id u =? "")%string eqn:E; [| reflexivity].
  apply String.eqb_eq in E. now rewrite E.
Qed.

(** The filters that the tabs all, created and overdue set let every
    visible ticket through, when the search is empty and the priority filter
    is on "all". *)
Lemma default_filters_like sess f tickets_ :
  searchTerm f = "" -> priorityFilter f = "all" ->
  getFilteredTickets sess
    (mkFilters (searchTerm f) "all" (priorityFilter f) "all") tickets_
  = userTickets sess tickets_.
Proof.
  intros Hs Hp. unfold getFilteredTickets. apply filter_keeps_all.
  intros t _. rewrite matchesFilters_no_search by exact Hs.
  cbn [statusFilter priorityFilter assignedFilter]. now rewrite Hp.
Qed.

(** X20. With an empty search and the priority filter on "all", the list a
    tab shows has the length of the count in the tab's label for the tabs
    all, assigned and unassigned: for "assigned" when the signed-in user's
    id is neither "all" nor "unassigned" (ids that the assignment filter
    reads as keywords), for "unassigned" when no ticket is assigned to an id
    "unassigned". The tabs "created" and "overdue" set the same filters as
    "all", so they list the whole visible set whatever their counts say. *)
Theorem tab_lists_and_counts sess now f tickets_ :
  searchTerm f = "" -> priorityFilter f = "all" ->
  let shown tab :=
    getFilteredTickets sess (handleTabChange sess tab f) tickets_ in
  let counts := getTicketCounts sess now tickets_ in
  length (shown "all") = all counts
  /\ (forall u, user sess = Some u ->
        user_id u <> "all" -> user_id u <> "unassigned" ->
        length (shown "assigned") = assigned counts)
  /\ (canViewAllTickets sess = true ->
      (forall t, In t tickets_ -> assignedTo t <> val "unassigned") ->
      length (shown "unassigned") = unassigned counts)
  /\ shown "created" = userTickets sess tickets_
  /\ shown "overdue" = userTickets sess tickets_.
Proof.
  intros Hs Hp shown counts.
  assert (Hdefault : forall tab,
             handleTabChange sess tab f
             = mkFilters (searchTerm f) "all" (priorityFilter f) "all" ->
             shown tab = userTickets sess tickets_).
  { intros tab Htab. unfold shown. rewrite Htab.
    now apply default_filters_like. }
  split; [| split; [| split; [| split]]].
  - rewrite (Hdefault "all") by reflexivity. reflexivity.
  - intros u Hu Hall Hun. unfold shown, counts, getFilteredTickets.
    cbn [getTicketCounts assigned]. f_equal. apply filter_ext. intro t.
    rewrite matchesFilters_no_search by (unfold handleTabChange; exact Hs).
    unfold handleTabChange. cbn [String.eqb Ascii.eqb Bool.eqb andb].
    cbn [statusFilter priorityFilter assignedFilter]. rewrite Hp.
    unfold user_id_opt. rewrite Hu, or_else_user_id.
    apply String.eqb_neq in Hall, Hun. rewrite Hall, Hun.
    cbn [String.eqb Ascii.eqb Bool.eqb andb orb]. reflexivity.
  - intros Hview Hnone. unfold shown, counts, getFilteredTickets.
    cbn [getTicketCounts unassigned]. rewrite Hview. f_equal.
    apply filter_ext_in. intros t Ht.
    rewrite matchesFilters_no_search by (unfold handleTabChange; exact Hs).
    unfold handleTabChange. cbn [String.eqb Ascii.eqb Bool.eqb andb].
    cbn [statusFilter priorityFilter assignedFilter]. rewrite Hp.
    cbn [String.eqb Ascii.eqb Bool.eqb andb orb].
    assert (Hin : In t tickets_).
    { unfold userTickets in Ht. rewrite Hview in Ht. exact Ht. }
    rewrite (strict_eq_false _ _ (Hnone t Hin)). now rewrite orb_false_r.
  - apply Hdefault. reflexivity.
  - apply Hdefault. reflexivity.
Qed.

Lemma tab_lists_and_counts_witness :
  let mine := transformTicket assignedRow in
  let theirs := transformTicket (rawTicket "t2" "eng-2") in
  length (getFilteredTickets engineerSession
            (handleTabChange engineerSession "assigned" noFilters)
            [mine; theirs])
  = assigned (getTicketCounts engineerSession mar01 [mine; theirs])
  /\ length (getFilteredTickets supervisorSession
               (handleTabChange supervisorSession "unassigned" noFilters)
               [mine; theirs])
     = unassigned (getTicketCounts supervisorSession mar01 [mine; theirs]).
Proof.
  intros mine theirs. split.
  - destruct (tab_lists_and_counts engineerSession mar01 noFilters
                [mine; theirs] eq_refl eq_refl) as (_ & Hassigned & _).
    apply (Hassigned (mkUser "eng-1")); [reflexivity | |]; discriminate.
  - destruct (tab_lists_and_counts supervisorSession mar01 noFilters
                [mine; theirs] eq_refl eq_refl) as (_ & _ & Hunassigned & _).
    apply Hunassigned; [reflexivity |].
    intros t [<- | [<- | []]]; discriminate.
Defined.

Lemma filter_andb {A : Type} (p q : A -> bool) (l : list A) :
  filter (fun x => p x && q x) l = filter p (filter q l).
Proof.
  induction l as [| x l IH]; [reflexivity |].
  simpl. destruct (q x); simpl.
  - destruct (p x); simpl; now rewrite IH.
  - now rewrite andb_false_r.
Qed.

(** X21. With an empty search and the assignment filter on "all", picking a
    status and a priority on the page selects, from the visible set, what
    the hook's [getTicketsByStatus] and [getTicketsByPriority] select: the
    page's filter and the hook's helpers agree. *)
Theorem page_filters_agree_with_helpers sess f tickets_ :
  searchTerm f = "" -> assignedFilter f = "all" ->
  statusFilter f <> "all" -> priorityFilter f <> "all" ->
  getFilteredTickets sess f tickets_
  = getTicketsByStatus (statusFilter f)
      (getTicketsByPriority (priorityFilter f) (userTickets sess tickets_))
  /\ getFilteredTickets sess
       (mkFilters "" (statusFilter f) "all" "all") tickets_
     = getTicketsByStatus (statusFilter f) (userTickets sess tickets_)
  /\ getFilteredTickets sess
       (mkFilters "" "all" (priorityFilter f) "all") tickets_
     = getTicketsByPriority (priorityFilter f) (userTickets sess tickets_).
Proof.
  intros Hs Ha Hst Hp.
  apply String.eqb_neq in Hst, Hp.
  unfold getFilteredTickets, getTicketsByStatus, getTicketsByPriority.
  split; [| split].
  - rewrite <- filter_andb. apply filter_ext. intro t.
    rewrite matchesFilters_no_search by exact Hs.
    rewrite Ha, Hst, Hp. cbn [String.eqb Ascii.eqb Bool.eqb andb orb].
    now rewrite andb_true_r.
  - apply filter_ext. intro t.
    rewrite matchesFilters_no_search by reflexivity.
    cbn [statusFilter priorityFilter assignedFilter]. rewrite Hst.
    cbn [String.eqb Ascii.eqb Bool.eqb andb orb]. now rewrite !andb_true_r.
  - apply filter_ext. intro t.
    rewrite matchesFilters_no_search by reflexivity.
    cbn [statusFilter priorityFilter assignedFilter]. rewrite Hp.
    cbn [String.eqb Ascii.eqb Bool.eqb andb orb]. now rewrite andb_true_r.
Qed.

Lemma page_filters_agree_with_helpers_witness :
  let ts := [ticketDue "a" "open" undefined;
             ticketDue "b" "resolved" undefined] in
  getFilteredTickets supervisorSession (mkFilters "" "open" "high" "all") ts
  = getTicketsByStatus "open" (getTicketsByPriority "high" ts).
Proof.
  intro ts.
  destruct (page_filters_agree_with_helpers supervisorSession
              (mkFilters "" "open" "high" "all") ts eq_refl eq_refl)
    as [Hboth _]; [discriminate | discriminate |].
  exact Hboth.
Defined.

(** X22. For a session that may not view all tickets, the visible set is
    what the hook's [getMyTickets] and [getAssignedTickets] return together,
    when a user is signed in. Without a user the two helpers return nothing,
    while the page's visibility test, comparing with an [undefined] user
    id, lets through exactly the tickets whose [assignedTo] is
    [undefined]. *)
Theorem visible_set_and_helpers sess tickets_ t :
  canViewAllTickets sess = false ->
  (forall u, user sess = Some u ->
     (In t (userTickets sess tickets_) <->
      In t (getMyTickets sess tickets_)
      \/ In t (getAssignedTickets sess tickets_)))
  /\ (user sess = None ->
      getMyTickets sess tickets_ = []
      /\ getAssignedTickets sess tickets_ = []
      /\ (In t (userTickets sess tickets_) <->
          In t tickets_ /\ assignedTo t = undefined)).
Proof.
  intro Hview. split.
  - intros u Hu. rewrite (userTickets_own sess tickets_ t Hview).
    unfold getMyTickets, getAssignedTickets, Own, user_id_opt. rewrite Hu.
    rewrite !filter_In, String.eqb_eq, strict_eq_spec.
    split.
    + intros [Hin [Hc | Ha]]; [left | right]; split; congruence.
    + intros [[Hin Hc] | [Hin Ha]]; split; try assumption;
        [left | right]; congruence.
  - intro Hu. unfold getMyTickets, getAssignedTickets. rewrite Hu.
    split; [reflexivity | split; [reflexivity |]].
    rewrite (userTickets_own sess tickets_ t Hview).
    unfold Own, user_id_opt. rewrite Hu. split.
    + intros [Hin [Hc | Ha]]; [discriminate | now split].
    + intros [Hin Ha]. split; [exact Hin | now right].
Qed.

Lemma visible_set_and_helpers_witness :
  let mine := transformTicket assignedRow in
  let theirs := transformTicket (rawTicket "t2" "eng-2") in
  In mine (userTickets engineerSession [mine; theirs])
  /\ In theirs (userTickets signedOutSession [mine; theirs]).
Proof.
  intros mine theirs. split.
  - destruct (visible_set_and_helpers engineerSession [mine; theirs] mine
                eq_refl) as [Hin _].
    apply (Hin (mkUser "eng-1") eq_refl). right. left. reflexivity.
  - destruct (visible_set_and_helpers signedOutSession [mine; theirs] theirs
                eq_refl) as [_ Hout].
    destruct (Hout eq_refl) as (_ & _ & Hiff).
    apply Hiff. split; [right; left; reflexivity | reflexivity].
Defined.

Lemma filter_length_bound {A : Type} (p : A -> bool) (l : list A) :
  (length (filter p l) <= length l)%nat.
Proof.
  induction l as [| x l IH]; simpl; [lia |].
  destruct (p x); simpl; lia.
Qed.

Lemma filter_orb_length {A : Type} (p q : A -> bool) (l : list A) :
  (length (filter (fun x => p x || q x) l)
   <= length (filter p l) + length (filter q l))%nat.
Proof.
  induction l as [| x l IH]; simpl; [lia |].
  destruct (p x), (q x); simpl; lia.
Qed.

Lemma filter_absorb {A : Type} (p q : A -> bool) (l : list A) :
  (forall x, p x = true -> q x = true) ->
  filter p (filter q l) = filter p l.
Proof.
  intro Himp. rewrite <- filter_andb. apply filter_ext. intro x.
  destruct (p x) eqn:E; [| reflexivity]. now rewrite (Himp x E).
Qed.

(** X23. The counts of the tabs are consistent: none exceeds the count of
    all visible tickets, which none exceeds the size of the collection. For
    a session that may not view all tickets the unassigned count is 0, the
    assigned and created counts are those of the whole collection (the
    visibility step loses no ticket of the user's), and every visible
    ticket is counted as assigned or created. For an admin or supervisor
    the count of all is the size of the collection. *)
Theorem counts_are_consistent sess now tickets_ :
  let c := getTicketCounts sess now tickets_ in
  (assigned c <= all c /\ created_ c <= all c /\ unassigned c <= all c
   /\ overdue c <= all c /\ all c <= length tickets_)%nat
  /\ (canViewAllTickets sess = false ->
      unassigned c = 0%nat
      /\ assigned c
         = length (filter (fun t => strict_eq (assignedTo t) (user_id_opt sess))
                          tickets_)
      /\ created_ c
         = length (filter (fun t => strict_eq (val (createdBy t))
                                              (user_id_opt sess)) tickets_)
      /\ (all c <= assigned c + created_ c)%nat)
  /\ (canViewAllTickets sess = true -> all c = length tickets_).
Proof.
  intro c. unfold c, getTicketCounts.
  cbn [all assigned created_ unassigned overdue].
  split; [| split].
  - repeat split; try apply filter_length_bound.
    + destruct (canViewAllTickets sess); [apply filter_length_bound | lia].
    + unfold userTickets. destruct (canViewAllTickets sess);
        [lia | apply filter_length_bound].
  - intro Hview. unfold userTickets. rewrite Hview.
    assert (Ha : filter (fun t => strict_eq (assignedTo t) (user_id_opt sess))
                   (filter (isOwnTicket sess) tickets_)
                 = filter (fun t => strict_eq (assignedTo t) (user_id_opt sess))
                     tickets_).
    { apply filter_absorb. intros t Ht. unfold isOwnTicket.
      now rewrite Ht, orb_true_r. }
    assert (Hc : filter (fun t => strict_eq (val (createdBy t))
                                            (user_id_opt sess))
                   (filter (isOwnTicket sess) tickets_)
                 = filter (fun t => strict_eq (val (createdBy t))
                                              (user_id_opt sess)) tickets_).
    { apply filter_absorb. intros t Ht. unfold isOwnTicket. now rewrite Ht. }
    rewrite Ha, Hc. repeat split.
    unfold isOwnTicket.
    rewrite Nat.add_comm. apply filter_orb_length.
  - intro Hview. unfold userTickets. now rewrite Hview.
Qed.

Lemma counts_are_consistent_witness :
  let mine := transformTicket assignedRow in
  let theirs := transformTicket (rawTicket "t2" "eng-2") in
  getTicketCounts engineerSession mar01 [mine; theirs]
  = mkCounts 1 1 0 0 0
  /\ all (getTicketCounts supervisorSession mar01 [mine; theirs]) = 2%nat.
Proof.
  intros mine theirs. split.
  - reflexivity.
  - destruct (counts_are_consistent supervisorSession mar01 [mine; theirs])
      as (_ & _ & Hall).
    apply Hall. reflexivity.
Defined.

(** X24. The hook's [getUnassignedTickets] returns the tickets that have no
    assignee and are open, so none of them is among the tickets assigned to
    a user with a non-empty id. The page's unassigned count does not ask for
    status open: for an admin or supervisor it is at least the number of
    tickets the helper returns, and equal to it when every ticket without
    assignee is open. *)
Theorem unassigned_helper_and_count sess now tickets_ :
  (forall t, In t (getUnassignedTickets tickets_) <->
             In t tickets_ /\ truthy_str (assignedTo t) = false
             /\ status t = "open")
  /\ (forall u t, user sess = Some u -> user_id u <> "" ->
        In t (getUnassignedTickets tickets_) ->
        ~ In t (getAssignedTickets sess tickets_))
  /\ (canViewAllTickets sess = true ->
      (length (getUnassignedTickets tickets_)
       <= unassigned (getTicketCounts sess now tickets_))%nat
      /\ ((forall t, In t tickets_ -> truthy_str (assignedTo t) = false ->
                     status t = "open") ->
          length (getUnassignedTickets tickets_)
          = unassigned (getTicketCounts sess now tickets_))).
Proof.
  assert (Hmem : forall t, In t (getUnassignedTickets tickets_) <->
                   In t tickets_ /\ truthy_str (assignedTo t) = false
                   /\ status t = "open").
  { intro t. unfold getUnassignedTickets.
    rewrite filter_In, andb_true_iff, negb_true_iff, String.eqb_eq. tauto. }
  split; [exact Hmem | split].
  - intros u t Hu Hid Hun Has. apply Hmem in Hun.
    destruct Hun as (_ & Hfalsy & _).
    unfold getAssignedTickets in Has. rewrite Hu in Has.
    apply filter_In in Has. destruct Has as [_ Heq].
    apply strict_eq_spec in Heq. rewrite Heq in Hfalsy. simpl in Hfalsy.
    apply negb_false_iff, String.eqb_eq in Hfalsy. contradiction.
  - intro Hview. unfold getTicketCounts, getUnassignedTickets, userTickets.
    cbn [unassigned]. rewrite Hview. split.
    + rewrite (filter_ext _ (fun x => (status x =? "open")%string
                                      && negb (truthy_str (assignedTo x))))
        by (intro x; apply andb_comm).
      rewrite filter_andb. apply filter_length_bound.
    + intro Hopen. f_equal. apply filter_ext_in. intros t Ht.
      destruct (truthy_str (assignedTo t)) eqn:E; [reflexivity |].
      cbn [negb andb]. apply String.eqb_eq. now apply Hopen.
Qed.

Lemma unassigned_helper_and_count_witness :
  let ts := [ticketDue "a" "open" undefined;
             ticketDue "b" "in_progress" undefined] in
  (length (getUnassignedTickets ts)
   <= unassigned (getTicketCounts supervisorSession mar01 ts))%nat
  /\ getUnassignedTickets ts = [ticketDue "a" "open" undefined]
  /\ unassigned (getTicketCounts supervisorSession mar01 ts) = 2%nat.
Proof.
  intro ts.
  destruct (unassigned_helper_and_count supervisorSession mar01 ts)
    as (_ & _ & Hcount).
  destruct (Hcount eq_refl) as [Hle _].
  split; [exact Hle | split; reflexivity].
Defined.

Lemma filter_disjoint_length {A : Type} (p q : A -> bool) (l : list A) :
  (forall x, p x = true -> q x = false) ->
  (length (filter p l) + length (filter q l) <= length l)%nat.
Proof.
  intro Hdis. induction l as [| x l IH]; simpl; [lia |].
  destruct (p x) eqn:E; [rewrite (Hdis x E) |]; [| destruct (q x)];
    simpl; lia.
Qed.

(** X25. The admin dashboard computes its overdue and critical figures in
    its render, over the collection of that render: the overdue figure uses
    the test of the hook's [getOverdueTickets], so it is the length of what
    the helper returns and, for an admin or supervisor, the overdue count of
    the tickets page; the critical figure is the length of
    [getTicketsByPriority "critical"]. The total and resolved figures are
    computed by [loadSystemData] over the collection [captured] when the
    effect on the user ran: the resolved figure never exceeds the total
    one, and when the captured collection is the one being rendered no
    ticket is counted both as overdue and as resolved, so that the two
    figures together do not exceed the total. Over a stale capture that
    bound is lost: beside an empty capture the page shows a total of 0 and
    whatever overdue count the current collection has. *)
Theorem dashboard_figures_agree sess now tickets_ captured :
  overdueTickets now tickets_ = length (getOverdueTickets now tickets_)
  /\ (canViewAllTickets sess = true ->
      overdue (getTicketCounts sess now tickets_) = overdueTickets now tickets_)
  /\ criticalTickets tickets_
     = length (getTicketsByPriority "critical" tickets_)
  /\ (resolved_tickets captured <= total_tickets captured)%nat
  /\ (captured = tickets_ ->
      (overdueTickets now tickets_ + resolved_tickets captured
       <= total_tickets captured)%nat)
  /\ (captured = [] ->
      total_tickets captured = 0%nat /\ resolved_tickets captured = 0%nat).
Proof.
  assert (Hover : overdueTickets now tickets_
                  = length (getOverdueTickets now tickets_)).
  { unfold overdueTickets, getOverdueTickets. f_equal. apply filter_ext.
    intro t. apply counts_overdue_test. }
  split; [exact Hover | split; [| split; [| split; [| split]]]].
  - intro Hview. unfold getTicketCounts, userTickets. cbn [overdue].
    rewrite Hview. reflexivity.
  - reflexivity.
  - unfold resolved_tickets, total_tickets. apply filter_length_bound.
  - intros ->. rewrite Hover.
    unfold getOverdueTickets, resolved_tickets, total_tickets.
    apply filter_disjoint_length. intros t Ht. unfold isOverdue in Ht.
    destruct (dueDate t); try discriminate.
    apply andb_true_iff in Ht. destruct Ht as [_ Ht].
    now apply negb_true_iff in Ht.
  - intros ->. split; reflexivity.
Qed.

Lemma dashboard_figures_agree_witness :
  let ts := [ticketDue "a" "open" (val jan01);
             ticketDue "b" "resolved" (val jan01)] in
  overdue (getTicketCounts supervisorSession mar01 ts)
  = overdueTickets mar01 ts
  /\ overdueTickets mar01 ts = 1%nat
  /\ (overdueTickets mar01 ts + resolved_tickets ts <= total_tickets ts)%nat
  /\ total_tickets [] = 0%nat.
Proof.
  intro ts.
  destruct (dashboard_figures_agree supervisorSession mar01 ts ts)
    as (_ & Hpage & _ & _ & Hfresh & _).
  destruct (dashboard_figures_agree supervisorSession mar01 ts [])
    as (_ & _ & _ & _ & _ & Hstale).
  split; [apply Hpage; reflexivity | split; [reflexivity | split]].
  - apply Hfresh. reflexivity.
  - apply Hstale. reflexivity.
Defined.

(** The figures of the dashboard over a stale capture: the effect on the
    user ran when the collection was still empty, the collection now holds
    two overdue tickets; the page shows 2 overdue beside a total of 0. *)
Example dashboard_stale_capture :
  let ts := [ticketDue "a" "open" (val jan01);
             ticketDue "b" "assigned" (val jan01)] in
  let captured := tickets initialStore in
  overdueTickets mar01 ts = 2%nat
  /\ total_tickets captured = 0%nat
  /\ resolved_tickets captured = 0%nat.
Proof. repeat split. Qed.

(** X26. [hasRole] of [useAuth], asked for admin or supervisor, is truthy
    exactly when the tickets page lets the session view all tickets; for
    any list of roles it is falsy without a profile and for an empty role,
    even when the list holds the empty string. *)
Theorem hasRole_agrees_with_page sess :
  roleCheck_truthy (hasRole sess ["admin"; "supervisor"])
  = canViewAllTickets sess
  /\ (forall roles, profile sess = None ->
                    roleCheck_truthy (hasRole sess roles) = false)
  /\ (forall roles p, profile sess = Some p -> role p = "" ->
                      roleCheck_truthy (hasRole sess roles) = false)
  /\ (forall roles p, profile sess = Some p -> role p <> "" ->
        (roleCheck_truthy (hasRole sess roles) = true <-> In (role p) roles)).
Proof.
  unfold hasRole, canViewAllTickets, role_opt.
  split; [| split; [| split]].
  - destruct (profile sess) as [p |]; [| reflexivity].
    destruct (role p =? "")%string eqn:E.
    + apply String.eqb_eq in E. rewrite E. reflexivity.
    + cbn [roleCheck_truthy includes existsb strict_eq].
      rewrite (String.eqb_sym "admin"), (String.eqb_sym "supervisor").
      now rewrite orb_false_r.
  - intros roles ->. reflexivity.
  - intros roles p -> Hr. rewrite Hr. reflexivity.
  - intros roles p -> Hr. apply String.eqb_neq in Hr. rewrite Hr.
    cbn [roleCheck_truthy]. apply includes_In.
Qed.

Lemma hasRole_agrees_with_page_witness :
  roleCheck_truthy (hasRole supervisorSession ["admin"; "supervisor"]) = true
  /\ roleCheck_truthy (hasRole signedOutSession [""]) = false.
Proof.
  destruct (hasRole_agrees_with_page supervisorSession) as (_ & _ & _ & Hin).
  destruct (hasRole_agrees_with_page signedOutSession) as (_ & Hnone & _).
  split.
  - apply (Hin ["admin"; "supervisor"] (mkProfile "supervisor") eq_refl).
    + discriminate.
    + right. left. reflexivity.
  - apply Hnone. reflexivity.
Defined.

